(** * Machine reconciler of the load-balancer operator

    A shallow embedding of [controllers/machine_controller.go]: the
    reconciler that keeps the pre-terminate deletion hook of a Cluster API
    Machine in step with the cleanup state of the Cluster that owns it.

    Go values are modelled as follows.
    - [map[string]string] is an optional [gmap string string]: [None] is the
      nil map, [Some g] an allocated one.  Reading and deleting work on the
      nil map, assigning to it is a run-time panic.
    - [error] is an inductive type, a nil error is [None : option error].
    - the object the reconciler mutates in place is threaded through the
      functions, which return its new value.
    - the API server behind [client.Client] is a record holding the stored
      objects together with the failures the server is going to answer with.
    Log statements have no effect on the result and are left out. *)

From Stdlib Require Import ZArith String Ascii List Bool.
From stdpp Require Import base option strings gmap list fin_maps.

Local Open Scope string_scope.

(** ** Go maps from string to string *)

Module gomap.

Definition index (m : option (gmap string string)) (k : string) : option string :=
  match m with
  | Some g => g !! k
  | None => None
  end.

Definition make : option (gmap string string) := Some ∅.

(** [m[k] = v]; [None] is the panic "assignment to entry in nil map". *)
Definition assign (m : option (gmap string string)) (k v : string)
  : option (option (gmap string string)) :=
  match m with
  | Some g => Some (Some (<[k := v]> g))
  | None => None
  end.

(** [delete(m, k)], a no-op on the nil map. *)
Definition remove (m : option (gmap string string)) (k : string)
  : option (gmap string string) :=
  match m with
  | Some g => Some (delete k g)
  | None => None
  end.

(** The keys a [range] loop visits. *)
Definition keys (m : option (gmap string string)) : list string :=
  match m with
  | Some g => (map_to_list g).*1
  | None => []
  end.

End gomap.

(** ** Errors *)

Inductive StatusReason :=
| StatusReasonUnknown
| StatusReasonNotFound
| StatusReasonConflict
| StatusReasonTimeout
| StatusReasonInternalError.

Inductive error :=
| StatusError (reason : StatusReason) (message : string)
| errorString (message : string)
| withMessage (cause : error) (message : string).

#[global] Instance StatusReason_eq_dec : EqDecision StatusReason.
Proof. solve_decision. Defined.

#[global] Instance error_eq_dec : EqDecision error.
Proof. solve_decision. Defined.

Module apierrors.

Definition ReasonForError (err : error) : StatusReason :=
  match err with
  | StatusError reason _ => reason
  | _ => StatusReasonUnknown
  end.

Definition IsNotFound (err : error) : bool :=
  bool_decide (ReasonForError err = StatusReasonNotFound).

Definition dquote : string := String (ascii_of_nat 34) EmptyString.

Definition NewNotFound (resource name : string) : error :=
  StatusError StatusReasonNotFound
    (resource ++ " " ++ dquote ++ name ++ dquote ++ " not found").

End apierrors.

Module errors.

(** [errors.Wrapf] on a non-nil error. *)
Definition Wrapf (err : error) (message : string) : error :=
  withMessage err message.

End errors.

(** ** API objects *)

Record NamespacedName := mkNamespacedName { nnNamespace : string; nnName : string }.

#[global] Instance NamespacedName_eq_dec : EqDecision NamespacedName.
Proof. solve_decision. Defined.

#[global] Instance NamespacedName_countable : Countable NamespacedName.
Proof.
  refine (inj_countable' (fun k => (nnNamespace k, nnName k))
                         (fun p => mkNamespacedName p.1 p.2) _).
  by intros [].
Defined.

Definition NamespacedName_String (k : NamespacedName) : string :=
  nnNamespace k ++ "/" ++ nnName k.

Record TypeMeta := mkTypeMeta { Kind : string; APIVersion : string }.

(** [DeletionTimestamp] counts from Go's zero time instant. *)
Record ObjectMeta := mkObjectMeta {
  Name : string;
  Namespace : string;
  Labels : option (gmap string string);
  Annotations : option (gmap string string);
  DeletionTimestamp : option Z;
  Finalizers : list string
}.

Record MachineSpec := mkMachineSpec {
  ClusterName : string;
  Version : option string;
  ProviderID : option string
}.

Record Machine := mkMachine {
  machineType : TypeMeta;
  machineMeta : ObjectMeta;
  machineSpec : MachineSpec
}.

Record Cluster := mkCluster {
  clusterType : TypeMeta;
  clusterMeta : ObjectMeta;
  clusterPaused : bool
}.

#[global] Instance TypeMeta_eq_dec : EqDecision TypeMeta.
Proof. solve_decision. Defined.
#[global] Instance ObjectMeta_eq_dec : EqDecision ObjectMeta.
Proof. solve_decision. Defined.
#[global] Instance MachineSpec_eq_dec : EqDecision MachineSpec.
Proof. solve_decision. Defined.
#[global] Instance Machine_eq_dec : EqDecision Machine.
Proof. solve_decision. Defined.
#[global] Instance Cluster_eq_dec : EqDecision Cluster.
Proof. solve_decision. Defined.

(** In-place assignment to [obj.Annotations]. *)
Definition setAnnotations (obj : Machine) (a : option (gmap string string)) : Machine :=
  {| machineType := machineType obj;
     machineMeta :=
       {| Name := Name (machineMeta obj);
          Namespace := Namespace (machineMeta obj);
          Labels := Labels (machineMeta obj);
          Annotations := a;
          DeletionTimestamp := DeletionTimestamp (machineMeta obj);
          Finalizers := Finalizers (machineMeta obj) |};
     machineSpec := machineSpec obj |}.

Definition objectKey (obj : Machine) : NamespacedName :=
  {| nnNamespace := Namespace (machineMeta obj); nnName := Name (machineMeta obj) |}.

Module schema.

Record GroupVersion := mkGroupVersion { gvGroup : string; gvVersion : string }.

Record GroupVersionKind := mkGroupVersionKind {
  Group : string; Version : string; gvkKind : string
}.

(** [strings.Count] for a one-byte separator. *)
Fixpoint Count (s : string) (sep : ascii) : nat :=
  match s with
  | EmptyString => 0
  | String c rest => if Ascii.eqb c sep then S (Count rest sep) else Count rest sep
  end.

(** [gv[:i]] and [gv[i+1:]] for the index [i] of the first [sep]. *)
Fixpoint cut (s : string) (sep : ascii) : string * string :=
  match s with
  | EmptyString => (EmptyString, EmptyString)
  | String c rest =>
      if Ascii.eqb c sep then (EmptyString, rest)
      else (String c (cut rest sep).1, (cut rest sep).2)
  end.

(** [None] is the error "unexpected GroupVersion string". *)
Definition ParseGroupVersion (gv : string) : option GroupVersion :=
  if bool_decide (gv = EmptyString \/ gv = "/") then
    Some {| gvGroup := EmptyString; gvVersion := EmptyString |}
  else
    match Count gv "/" with
    | 0 => Some {| gvGroup := EmptyString; gvVersion := gv |}
    | 1 => Some {| gvGroup := (cut gv "/").1; gvVersion := (cut gv "/").2 |}
    | _ => None
    end.

Definition FromAPIVersionAndKind (apiVersion kind : string) : GroupVersionKind :=
  match ParseGroupVersion apiVersion with
  | Some gv => {| Group := gvGroup gv; Version := gvVersion gv; gvkKind := kind |}
  | None => {| Group := EmptyString; Version := EmptyString; gvkKind := kind |}
  end.

Definition String (gvk : GroupVersionKind) : string :=
  Group gvk ++ "/" ++ Version gvk ++ ", Kind=" ++ gvkKind gvk.

End schema.

(** [obj.GroupVersionKind().String()]. *)
Definition GroupVersionKind_String (t : TypeMeta) : string :=
  schema.String (schema.FromAPIVersionAndKind (APIVersion t) (Kind t)).

(** [IsZero] on a [metav1.Time] pointer: nil or the zero instant. *)
Definition IsZero (t : option Z) : bool :=
  match t with
  | None => true
  | Some v => (v =? 0)%Z
  end.

Record Result := mkResult { Requeue : bool; RequeueAfter : Z }.

Definition emptyResult : Result := {| Requeue := false; RequeueAfter := 0 |}.

(** ** Constants and helpers of Cluster API *)

Module clusterv1.
Definition ClusterLabelName : string := "cluster.x-k8s.io/cluster-name".
Definition PreTerminateDeleteHookAnnotationPrefix : string :=
  "pre-terminate.delete.hook.machine.cluster.x-k8s.io".
End clusterv1.

Module annotations.
(** True when at least one key of the map starts with [prefix]. *)
Definition HasWithPrefix (prefix : string) (m : option (gmap string string)) : bool :=
  existsb (String.prefix prefix) (gomap.keys m).
End annotations.

Module controllerruntime.
(** Modelled from the spec: [ContainsFinalizer] of the repository's
    [pkg/controller-runtime] package is not among the sources; the owner's
    finalizer set "contains the managing finalizer". *)
Definition ContainsFinalizer (o : Cluster) (finalizer : string) : bool :=
  bool_decide (finalizer ∈ Finalizers (clusterMeta o)).
End controllerruntime.

(** ** The object store behind [client.Client] *)

(** The stored objects, the failures the server answers with, and the
    number of update requests sent so far. *)
Record Client := mkClient {
  machines : gmap NamespacedName Machine;
  clusters : gmap NamespacedName Cluster;
  getMachineFault : option error;
  getClusterFault : option error;
  helperFault : option error;
  diffFault : option error;
  applyFault : option error;
  updates : nat
}.

Definition GetMachine (r : Client) (key : NamespacedName) : error + Machine :=
  match getMachineFault r with
  | Some err => inl err
  | None =>
      match machines r !! key with
      | Some obj => inr obj
      | None => inl (apierrors.NewNotFound "machines" (nnName key))
      end
  end.

Definition GetCluster (r : Client) (key : NamespacedName) : error + Cluster :=
  match getClusterFault r with
  | Some err => inl err
  | None =>
      match clusters r !! key with
      | Some obj => inr obj
      | None => inl (apierrors.NewNotFound "clusters" (nnName key))
      end
  end.

(** Every object is stored under its own namespace and name. *)
Definition store_wf (r : Client) : Prop :=
  forall key obj, machines r !! key = Some obj -> objectKey obj = key.

(** The server answers the patch helper: it can be set up, the diff can be
    computed and the update request is accepted. *)
Definition responsive (r : Client) : Prop :=
  helperFault r = None /\ diffFault r = None /\ applyFault r = None.

Module patch.

Record Helper := mkHelper { before : Machine }.

(** Modelled from the spec: the repository's [pkg/controller-runtime/patch]
    package is not among the sources.  [NewHelper] takes the snapshot
    ("snapshot := copy(resource)"). *)
Definition NewHelper (obj : Machine) (r : Client) : error + Helper :=
  match helperFault r with
  | Some err => inl err
  | None => inr {| before := obj |}
  end.

(** Modelled from the spec: the diff between the snapshot and the current
    object is empty exactly when nothing was changed. *)
Definition diffIsEmpty (snapshot obj : Machine) : bool :=
  bool_decide (snapshot = obj).

(** Modelled from the spec: the "single update request to the ObjectStore".
    The request is counted; the server refuses it, or stores the object
    under its namespace and name. *)
Definition sendUpdate (obj : Machine) (r : Client) : option error * Client :=
  let sent :=
    {| machines := machines r; clusters := clusters r;
       getMachineFault := getMachineFault r; getClusterFault := getClusterFault r;
       helperFault := helperFault r; diffFault := diffFault r;
       applyFault := applyFault r; updates := S (updates r) |} in
  match applyFault r with
  | Some err => (Some err, sent)
  | None =>
      (None,
       {| machines := <[objectKey obj := obj]> (machines r); clusters := clusters r;
          getMachineFault := getMachineFault r; getClusterFault := getClusterFault r;
          helperFault := helperFault r; diffFault := diffFault r;
          applyFault := applyFault r; updates := S (updates r) |})
  end.

(** Modelled from the spec: [Helper.Patch] "computes diff(snapshot,
    resource) and, if non-empty, issues a single update request"; either
    the diff computation or the update may fail. *)
Definition Patch (h : Helper) (obj : Machine) (r : Client) : option error * Client :=
  match diffFault r with
  | Some err => (Some err, r)
  | None =>
      if diffIsEmpty (before h) obj then (None, r)
      else sendUpdate obj r
  end.

End patch.

(** ** The reconciler *)

(** How a call ends: it returns its two results, or it panics. *)
Inductive outcome :=
| Return (res : Result) (reterr : option error)
| Panic (message : string).

Definition preTerminateAnnotation : string :=
  clusterv1.PreTerminateDeleteHookAnnotationPrefix ++ "/avi-cleanup".

Section MachineReconciler.

(** The label and the finalizer are constants of the repository's
    [api/v1alpha1] package, which is not among the sources. *)
Variable AviClusterLabel : string.
Variable ClusterFinalizer : string.

(** reconcileNormal adds the pre-terminate machine deletion phase hook to
    the Machine. *)
Definition reconcileNormal (obj : Machine) (cluster : Cluster) : outcome * Machine :=
  match gomap.index (Annotations (machineMeta obj))
                    clusterv1.PreTerminateDeleteHookAnnotationPrefix with
  | None =>
      let obj :=
        match Annotations (machineMeta obj) with
        | None => setAnnotations obj gomap.make
        | Some _ => obj
        end in
      match gomap.assign (Annotations (machineMeta obj))
                         preTerminateAnnotation "ako-operator" with
      | Some a => (Return emptyResult None, setAnnotations obj a)
      | None => (Panic "assignment to entry in nil map", obj)
      end
  | Some _ => (Return emptyResult None, obj)
  end.

(** reconcileMachineDeletionHook removes the pre-terminate hook when the
    finalizer on the Cluster is absent. *)
Definition reconcileMachineDeletionHook (obj : Machine) (cluster : Cluster)
  : outcome * Machine :=
  let res := emptyResult in
  if controllerruntime.ContainsFinalizer cluster ClusterFinalizer then
    (Return res None, obj)
  else if annotations.HasWithPrefix clusterv1.PreTerminateDeleteHookAnnotationPrefix
                                    (Annotations (machineMeta obj)) then
    (Return res None,
     setAnnotations obj (gomap.remove (Annotations (machineMeta obj))
                                      preTerminateAnnotation))
  else (Return res None, obj).

Definition reconcileClusterDelete (obj : Machine) (cluster : Cluster)
  : outcome * Machine :=
  reconcileMachineDeletionHook obj cluster.

(** The statements of [Reconcile] that follow the [defer]: the decision
    logic, run on the fetched object. *)
Definition reconcileBody (r : Client) (obj : Machine) : outcome * Machine :=
  let res := emptyResult in
  match gomap.index (Labels (machineMeta obj)) clusterv1.ClusterLabelName with
  | None => (Return res None, obj)
  | Some clusterName =>
      match GetCluster r {| nnNamespace := Namespace (machineMeta obj);
                            nnName := clusterName |} with
      | inl err => (Return res (Some err), obj)
      | inr cluster =>
          match gomap.index (Labels (clusterMeta cluster)) AviClusterLabel with
          | None => (Return res None, obj)
          | Some _ =>
              if negb (IsZero (DeletionTimestamp (clusterMeta cluster))) then
                match reconcileClusterDelete obj cluster with
                | (Return res (Some err), obj) => (Return res (Some err), obj)
                | (Return res None, obj) => (Return res None, obj)
                | (Panic msg, obj) => (Panic msg, obj)
                end
              else
                match reconcileNormal obj cluster with
                | (Return res' (Some err), obj) => (Return res' (Some err), obj)
                | (Return _ None, obj) => (Return res None, obj)
                | (Panic msg, obj) => (Panic msg, obj)
                end
          end
      end
  end.

(** The deferred function: patch, and report the failure of the patch
    when the body reported none.  It also runs while a panic unwinds. *)
Definition deferredPatch (patchHelper : patch.Helper) (obj : Machine)
           (out : outcome) (r : Client) : outcome * Client :=
  match patch.Patch patchHelper obj r with
  | (Some err, r') =>
      match out with
      | Return res None => (Return res (Some err), r')
      | Return res (Some reterr) => (Return res (Some reterr), r')
      | Panic msg => (Panic msg, r')
      end
  | (None, r') => (out, r')
  end.

Definition Reconcile (r : Client) (req : NamespacedName) : outcome * Client :=
  match GetMachine r req with
  | inl err =>
      if apierrors.IsNotFound err then (Return emptyResult None, r)
      else (Return emptyResult (Some err), r)
  | inr obj =>
      match patch.NewHelper obj r with
      | inl err =>
          (Return emptyResult
             (Some (errors.Wrapf err
                      ("failed to init patch helper for "
                       ++ GroupVersionKind_String (machineType obj) ++ " "
                       ++ NamespacedName_String req))),
           r)
      | inr patchHelper =>
          let '(out, obj) := reconcileBody r obj in
          deferredPatch patchHelper obj out r
      end
  end.

(** *** Observations used in the statements *)

Definition reterrOf (out : outcome) : option (option error) :=
  match out with
  | Return _ reterr => Some reterr
  | Panic _ => None
  end.

(** The call returned a nil error. *)
Definition succeeded (out : outcome) : Prop := reterrOf out = Some None.

(** The hook tag of this operator is on the object. *)
Definition hookPresent (obj : Machine) : bool :=
  bool_decide (is_Some (gomap.index (Annotations (machineMeta obj))
                                    preTerminateAnnotation)).

Definition deleting (cluster : Cluster) : bool :=
  negb (IsZero (DeletionTimestamp (clusterMeta cluster))).

Definition finalizerPresent (cluster : Cluster) : bool :=
  controllerruntime.ContainsFinalizer cluster ClusterFinalizer.

(** The dependent [obj] stored under [req] and its owner [cluster] are in
    scope: the Machine names its Cluster, the Cluster is stored and
    carries the feature label. *)
Definition inScope (r : Client) (req : NamespacedName)
           (obj : Machine) (cluster : Cluster) : Prop :=
  GetMachine r req = inr obj /\
  exists clusterName,
    gomap.index (Labels (machineMeta obj)) clusterv1.ClusterLabelName = Some clusterName /\
    GetCluster r {| nnNamespace := Namespace (machineMeta obj);
                    nnName := clusterName |} = inr cluster /\
    is_Some (gomap.index (Labels (clusterMeta cluster)) AviClusterLabel).

End MachineReconciler.

(** ** The manifest renderer *)

(** The configuration types, as the unit test of the renderer builds them. *)
Module akoov1alpha1.

Record DataNetwork := mkDataNetwork { Name : string; CIDR : string }.

Record AKOImageConfig := mkAKOImageConfig {
  Repository : string; PullPolicy : string; Version : string
}.

Record AKORbacConfig := mkAKORbacConfig {
  PspEnabled : bool; PspPolicyAPIVersion : string
}.

Record AKOLogConfig := mkAKOLogConfig {
  PersistentVolumeClaim : string; MountPath : string; LogFile : string
}.

Record NodeNetwork := mkNodeNetwork { NetworkName : string; Cidrs : list string }.

Record AKOIngressConfig := mkAKOIngressConfig {
  DisableIngressClass : bool;
  DefaultIngressController : bool;
  ShardVSSize : string;
  ServiceType : string;
  NodeNetworkList : list NodeNetwork
}.

Record ExtraConfigs := mkExtraConfigs {
  Image : AKOImageConfig;
  Rbac : AKORbacConfig;
  Log : AKOLogConfig;
  IngressConfigs : AKOIngressConfig;
  DisableStaticRouteSync : bool
}.

Record AKODeploymentConfigSpec := mkAKODeploymentConfigSpec {
  CloudName : string;
  Controller : string;
  ServiceEngineGroup : string;
  dataNetwork : DataNetwork;
  extraConfigs : ExtraConfigs
}.

Record AKODeploymentConfig := mkAKODeploymentConfig { Spec : AKODeploymentConfigSpec }.

End akoov1alpha1.

Module bootstrap_cluster.

Import akoov1alpha1.

(** *** Network ranges: an address, a slash, a prefix length *)

(** The grammar is the one of Go's [net.ParseCIDR]: an IPv4 address of four
    decimal fields without leading zeros, or an IPv6 address of fields of
    one to four hexadecimal digits, with at most one [::] and possibly an
    IPv4 address in place of the last two fields; then a slash and a
    decimal prefix length of at most 32 or 128 bits. *)

Definition isDigit (c : ascii) : bool :=
  ((48 <=? N_of_ascii c) && (N_of_ascii c <=? 57))%N.

Fixpoint digits (s : string) (acc : N) : option N :=
  match s with
  | EmptyString => Some acc
  | String c rest =>
      if isDigit c then digits rest (acc * 10 + (N_of_ascii c - 48))%N else None
  end.

(** A decimal number of at least one digit that does not exceed [bound]. *)
Definition decimal (bound : N) (s : string) : option N :=
  match s with
  | EmptyString => None
  | String _ _ =>
      match digits s 0%N with
      | Some n => if (n <=? bound)%N then Some n else None
      | None => None
      end
  end.

(** A field of an IPv4 address: no leading zero, at most 255. *)
Definition octet (s : string) : option N :=
  match s with
  | String "0" (String _ _) => None
  | _ => decimal 255 s
  end.

Fixpoint splitOn (sep : ascii) (s : string) : list string :=
  match s with
  | EmptyString => [EmptyString]
  | String c rest =>
      if Ascii.eqb c sep then EmptyString :: splitOn sep rest
      else match splitOn sep rest with
           | part :: parts => String c part :: parts
           | [] => [String c EmptyString]
           end
  end.

(** The address as a list of its four octets, or of its eight 16-bit
    fields, and the length of the prefix in bits. *)
Record IPNet := mkIPNet { address : list N; prefixLength : N }.

Definition parseIPv4 (s : string) : option (list N) :=
  match splitOn "." s with
  | [a; b; c; d] =>
      match octet a, octet b, octet c, octet d with
      | Some a, Some b, Some c, Some d => Some [a; b; c; d]
      | _, _, _, _ => None
      end
  | _ => None
  end.

Definition hexDigit (c : ascii) : option N :=
  let n := N_of_ascii c in
  if ((48 <=? n) && (n <=? 57))%N then Some (n - 48)%N
  else if ((97 <=? n) && (n <=? 102))%N then Some (n - 87)%N
  else if ((65 <=? n) && (n <=? 70))%N then Some (n - 55)%N
  else None.

(** The hexadecimal digits at the head of [s], one to four of them, and
    what follows them. *)
Fixpoint hexField (s : string) (count : nat) (acc : N) : option (N * string) :=
  match s with
  | EmptyString => if count is O then None else Some (acc, s)
  | String c rest =>
      match hexDigit c with
      | Some d =>
          if (count <? 4)%nat then hexField rest (S count) (acc * 16 + d)%N else None
      | None => if count is O then None else Some (acc, s)
      end
  end.

(** The loop over the fields of an IPv6 address: [fields] are the ones
    read so far, [ellipsis] is the place of the [::] among them; [fuel]
    counts the fields that still fit. *)
Fixpoint fieldsIPv6 (fuel : nat) (s : string) (fields : list N) (ellipsis : option nat)
  : option (list N * option nat) :=
  match fuel with
  | O => match s with EmptyString => Some (fields, ellipsis) | String _ _ => None end
  | S fuel =>
      match hexField s 0 0%N with
      | None => None
      | Some (n, rest) =>
          match rest with
          | String "." _ =>
              if bool_decide (ellipsis = None /\ List.length fields <> 6%nat) then None
              else if bool_decide (6 < List.length fields)%nat then None
              else
                match parseIPv4 s with
                | Some [a; b; c; d] =>
                    Some ((fields ++ [a * 256 + b; c * 256 + d]%N)%list, ellipsis)
                | _ => None
                end
          | EmptyString => Some ((fields ++ [n])%list, ellipsis)
          | String ":" EmptyString => None
          | String ":" (String ":" rest) =>
              match ellipsis with
              | Some _ => None
              | None =>
                  match rest with
                  | EmptyString => Some ((fields ++ [n])%list, Some (List.length (fields ++ [n])%list))
                  | String _ _ =>
                      fieldsIPv6 fuel rest (fields ++ [n])%list (Some (List.length (fields ++ [n])%list))
                  end
              end
          | String ":" rest => fieldsIPv6 fuel rest (fields ++ [n])%list ellipsis
          | String _ _ => None
          end
      end
  end.

Definition parseIPv6 (s : string) : option (list N) :=
  let start :=
    match s with
    | String ":" (String ":" rest) => (rest, Some 0%nat)
    | _ => (s, None)
    end in
  match start with
  | (EmptyString, Some _) => Some (replicate 8 0%N)
  | (s, ellipsis) =>
      match fieldsIPv6 8 s [] ellipsis with
      | None => None
      | Some (fields, ellipsis) =>
          if (List.length fields <? 8)%nat then
            match ellipsis with
            | None => None
            | Some i =>
                Some (take i fields ++ replicate (8 - List.length fields) 0%N ++ drop i fields)%list
            end
          else
            match ellipsis with
            | None => Some fields
            | Some _ => None
            end
      end
  end.

(** Whether the first of the characters dot, colon and percent in [s] is
    a dot ([Some true]) or a colon ([Some false]). *)
Fixpoint family (s : string) : option bool :=
  match s with
  | EmptyString => None
  | String "." _ => Some true
  | String ":" _ => Some false
  | String "%" _ => None
  | String _ rest => family rest
  end.

(** The address and the number of its bits. *)
Definition ParseAddr (s : string) : option (list N * N) :=
  match family s with
  | Some true => match parseIPv4 s with Some ip => Some (ip, 32%N) | None => None end
  | Some false => match parseIPv6 s with Some ip => Some (ip, 128%N) | None => None end
  | None => None
  end.

(** Modelled from the spec: the check that a field is a "syntactically
    correct network-address-with-prefix value"; the function the renderer
    calls is not among the sources. *)
Definition ParseCIDR (s : string) : option IPNet :=
  match splitOn "/" s with
  | [addr; len] =>
      match ParseAddr addr with
      | Some (ip, bits) =>
          match decimal bits len with
          | Some n => Some {| address := ip; prefixLength := n |}
          | None => None
          end
      | None => None
      end
  | _ => None
  end.

(** *** Rendering *)

(** The validation error names the field that failed and its value. *)
Inductive renderError :=
| InvalidNetworkRange (field : string) (value : string).

(** What is substituted into the template: every field of the
    configuration, the name of the management cluster and the parsed
    network ranges. *)
Record Values := mkValues {
  config : AKODeploymentConfigSpec;
  managementClusterName : string;
  dataNetworkRange : IPNet;
  nodeNetworkRanges : list (string * list IPNet)
}.

Fixpoint parseCidrs (field : string) (cidrs : list string) : renderError + list IPNet :=
  match cidrs with
  | [] => inr []
  | cidr :: rest =>
      match ParseCIDR cidr with
      | None => inl (InvalidNetworkRange field cidr)
      | Some n =>
          match parseCidrs field rest with
          | inl e => inl e
          | inr ns => inr (n :: ns)
          end
      end
  end.

Fixpoint parseNodeNetworks (nets : list NodeNetwork)
  : renderError + list (string * list IPNet) :=
  match nets with
  | [] => inr []
  | net :: rest =>
      match parseCidrs ("nodeNetworkList[" ++ NetworkName net ++ "].cidrs") (Cidrs net) with
      | inl e => inl e
      | inr ns =>
          match parseNodeNetworks rest with
          | inl e => inl e
          | inr others => inr ((NetworkName net, ns) :: others)
          end
      end
  end.

(** Modelled from the spec: the data network CIDR and each node-network
    CIDR are validated during substitution; the first one that fails is
    reported.  The function is not among the sources. *)
Definition PopulateValues (obj : AKODeploymentConfig) (mgmtClusterName : string)
  : renderError + Values :=
  match ParseCIDR (CIDR (dataNetwork (Spec obj))) with
  | None => inl (InvalidNetworkRange "dataNetwork.cidr" (CIDR (dataNetwork (Spec obj))))
  | Some dataRange =>
      match parseNodeNetworks
              (NodeNetworkList (IngressConfigs (extraConfigs (Spec obj)))) with
      | inl e => inl e
      | inr nodeRanges =>
          inr {| config := Spec obj;
                 managementClusterName := mgmtClusterName;
                 dataNetworkRange := dataRange;
                 nodeNetworkRanges := nodeRanges |}
      end
  end.

Section Renderer.

(** The fixed manifest template, as the text it yields for given
    values; the template is not among the sources. *)
Variable manifestTemplate : Values -> string.

(** The name of the environment variable that holds the name of the
    management cluster, a constant of the repository's
    [pkg/ako-operator] package. *)
Variable ManagementClusterName : string.

(** Modelled from the spec: [RenderManifest(config, mgmtClusterName)]
    returns the rendered bytes or a validation error, and no partial
    output.  The renderer is not among the sources. *)
Definition RenderManifest (obj : AKODeploymentConfig) (mgmtClusterName : string)
  : renderError + string :=
  match PopulateValues obj mgmtClusterName with
  | inl e => inl e
  | inr values => inr (manifestTemplate values)
  end.

(** [os.Getenv]: the empty string for a variable that is not set. *)
Definition Getenv (env : gmap string string) (key : string) : string :=
  default EmptyString (env !! key).

(** Modelled from the spec: [ConvertToAKODeploymentYaml] is the
    renderer, called with the management cluster's name read from the
    process environment. *)
Definition ConvertToAKODeploymentYaml (env : gmap string string)
           (obj : AKODeploymentConfig) : renderError + string :=
  RenderManifest obj (Getenv env ManagementClusterName).

End Renderer.

(** The configuration of the unit test, with the data-network CIDR left
    open. *)
Definition testConfig (cidr : string) : AKODeploymentConfig :=
  {| Spec :=
       {| CloudName := "test-cloud";
          Controller := "10.23.122.1";
          ServiceEngineGroup := "Default-SEG";
          dataNetwork := {| Name := "test-akdc"; CIDR := cidr |};
          extraConfigs :=
            {| Image := {| Repository := "test/image";
                           PullPolicy := "IfNotPresent";
                           Version := "1.3.1" |};
               Rbac := {| PspEnabled := true; PspPolicyAPIVersion := "test/1.2" |};
               Log := {| PersistentVolumeClaim := "true";
                         MountPath := "/var/log";
                         LogFile := "test-avi.log" |};
               IngressConfigs :=
                 {| DisableIngressClass := true;
                    DefaultIngressController := true;
                    ShardVSSize := "MEDIUM";
                    ServiceType := "NodePort";
                    NodeNetworkList :=
                      [ {| NetworkName := "test-node-network-1";
                           Cidrs := ["10.0.0.0/24"; "192.168.0.0/24"] |} ] |};
               DisableStaticRouteSync := true |} |} |}.

(** The assignment [akoDeploymentConfig.Spec.DataNetwork.CIDR = cidr] of
    the unit test. *)
Definition setDataNetworkCIDR (obj : AKODeploymentConfig) (cidr : string)
  : AKODeploymentConfig :=
  {| Spec :=
       {| CloudName := CloudName (Spec obj);
          Controller := Controller (Spec obj);
          ServiceEngineGroup := ServiceEngineGroup (Spec obj);
          dataNetwork := {| Name := Name (dataNetwork (Spec obj)); CIDR := cidr |};
          extraConfigs := extraConfigs (Spec obj) |} |}.

(** Every CIDR of every node network of the configuration is a network
    range. *)
Definition nodeNetworksValid (obj : AKODeploymentConfig) : Prop :=
  Forall (fun net => Forall (fun cidr => is_Some (ParseCIDR cidr)) (Cidrs net))
         (NodeNetworkList (IngressConfigs (extraConfigs (Spec obj)))).

End bootstrap_cluster.


(** ** Sample objects *)

Module sample.

Definition AviClusterLabel : string := "networking.tkg.tanzu.vmware.com/avi".
Definition ClusterFinalizer : string := "ako-operator.networking.tkg.tanzu.vmware.com".

Definition machine (a : option (gmap string string)) : Machine :=
  {| machineType := {| Kind := "Machine"; APIVersion := "cluster.x-k8s.io/v1alpha3" |};
     machineMeta :=
       {| Name := "worker-0";
          Namespace := "default";
          Labels := Some {[ clusterv1.ClusterLabelName := "workload" ]};
          Annotations := a;
          DeletionTimestamp := None;
          Finalizers := ["machine.cluster.x-k8s.io"] |};
     machineSpec := {| ClusterName := "workload";
                       Version := Some "v1.19.1";
                       ProviderID := None |} |}.

Definition cluster (labels : option (gmap string string)) (deletion : option Z)
           (finalizers : list string) : Cluster :=
  {| clusterType := {| Kind := "Cluster"; APIVersion := "cluster.x-k8s.io/v1alpha3" |};
     clusterMeta :=
       {| Name := "workload";
          Namespace := "default";
          Labels := labels;
          Annotations := None;
          DeletionTimestamp := deletion;
          Finalizers := finalizers |};
     clusterPaused := false |}.

Definition enabled : option (gmap string string) := Some {[ AviClusterLabel := EmptyString ]}.

Definition req : NamespacedName := {| nnNamespace := "default"; nnName := "worker-0" |}.

Definition clusterKey : NamespacedName :=
  {| nnNamespace := "default"; nnName := "workload" |}.

(** A server that answers every request. *)
Definition client (m : Machine) (c : Cluster) : Client :=
  {| machines := {[ req := m ]};
     clusters := {[ clusterKey := c ]};
     getMachineFault := None; getClusterFault := None; helperFault := None;
     diffFault := None; applyFault := None; updates := 0 |}.

(** A server that has lost the Cluster and cannot compute a diff. *)
Definition brokenClient (m : Machine) (diffErr : error) : Client :=
  {| machines := {[ req := m ]};
     clusters := ∅;
     getMachineFault := None; getClusterFault := None; helperFault := None;
     diffFault := Some diffErr; applyFault := None; updates := 0 |}.

(** A server without objects that answers reads of Machines with [err]. *)
Definition failingClient (err : option error) : Client :=
  {| machines := ∅;
     clusters := ∅;
     getMachineFault := err; getClusterFault := None; helperFault := None;
     diffFault := None; applyFault := None; updates := 0 |}.

(** The same server, answering the patch helper with the given failures. *)
Definition withFaults (r : Client) (helperErr diffErr applyErr : option error) : Client :=
  {| machines := machines r;
     clusters := clusters r;
     getMachineFault := getMachineFault r; getClusterFault := getClusterFault r;
     helperFault := helperErr; diffFault := diffErr; applyFault := applyErr;
     updates := updates r |}.

(** An instant after Go's zero time. *)
Definition someTime : option Z := Some 63739699200%Z.

Definition hookOnly : gmap string string :=
  {[ preTerminateAnnotation := "ako-operator" ]}.

(** A tag whose key is the bare prefix, without a hook name. *)
Definition bareOnly : gmap string string :=
  {[ clusterv1.PreTerminateDeleteHookAnnotationPrefix := "other" ]}.

(** The hook of this operator next to the hook of another controller. *)
Definition twoHooks : gmap string string :=
  {[ preTerminateAnnotation := "ako-operator";
     "pre-terminate.delete.hook.machine.cluster.x-k8s.io/drain" := "other-controller";
     "owner" := "team-a" ]}.

(** A Machine that names no Cluster. *)
Definition orphan : Machine :=
  {| machineType := {| Kind := "Machine"; APIVersion := "cluster.x-k8s.io/v1alpha3" |};
     machineMeta :=
       {| Name := "worker-0";
          Namespace := "default";
          Labels := None;
          Annotations := Some hookOnly;
          DeletionTimestamp := None;
          Finalizers := [] |};
     machineSpec := {| ClusterName := "workload"; Version := None; ProviderID := None |} |}.

(** Only the hook of another controller. *)
Definition foreignHook : gmap string string :=
  {[ "pre-terminate.delete.hook.machine.cluster.x-k8s.io/drain" := "other-controller" ]}.

Definition plainTags : gmap string string := {[ "owner" := "team-a" ]}.

Definition hookedTags : gmap string string :=
  {[ preTerminateAnnotation := "ako-operator"; "owner" := "team-a" ]}.

End sample.

(** * Properties *)

(** ** Go maps *)

Lemma prefix_of_hook :
  String.prefix clusterv1.PreTerminateDeleteHookAnnotationPrefix preTerminateAnnotation = true.
Proof. reflexivity. Qed.

Lemma hook_is_not_prefix :
  preTerminateAnnotation <> clusterv1.PreTerminateDeleteHookAnnotationPrefix.
Proof. discriminate. Qed.

Lemma HasWithPrefix_true (p : string) (m : option (gmap string string)) :
  annotations.HasWithPrefix p m = true <->
  exists k, is_Some (gomap.index m k) /\ String.prefix p k = true.
Proof.
  unfold annotations.HasWithPrefix. rewrite existsb_exists. split.
  - intros (k & Hin & Hp). exists k. split; [|done].
    destruct m as [g|]; simpl in *; [|done].
    apply list_elem_of_In, list_elem_of_fmap in Hin as ([k' v] & -> & Hkv).
    apply elem_of_map_to_list in Hkv. by exists v.
  - intros (k & [v Hk] & Hp). exists k. split; [|done].
    destruct m as [g|]; simpl in *; [|done].
    apply list_elem_of_In, list_elem_of_fmap. exists (k, v). split; [done|].
    by apply elem_of_map_to_list.
Qed.

Lemma HasWithPrefix_hook (m : option (gmap string string)) :
  is_Some (gomap.index m preTerminateAnnotation) ->
  annotations.HasWithPrefix clusterv1.PreTerminateDeleteHookAnnotationPrefix m = true.
Proof.
  intros H. apply HasWithPrefix_true. exists preTerminateAnnotation.
  split; [done | apply prefix_of_hook].
Qed.

Lemma HasWithPrefix_nil (p : string) : annotations.HasWithPrefix p None = false.
Proof. reflexivity. Qed.

Lemma index_remove_eq (m : option (gmap string string)) (k : string) :
  gomap.index (gomap.remove m k) k = None.
Proof. destruct m as [g|]; simpl; [apply lookup_delete_eq | done]. Qed.

Lemma index_remove_ne (m : option (gmap string string)) (k k' : string) :
  k <> k' -> gomap.index (gomap.remove m k) k' = gomap.index m k'.
Proof. intros H. destruct m as [g|]; simpl; [by apply lookup_delete_ne | done]. Qed.

Lemma remove_remove (m : option (gmap string string)) (k : string) :
  gomap.remove (gomap.remove m k) k = gomap.remove m k.
Proof. destruct m as [g|]; simpl; [by rewrite delete_delete_eq | done]. Qed.

(** ** Group, version and kind *)

Lemma append_cons (c : ascii) (x y : string) :
  (String c x ++ y)%string = String c (x ++ y)%string.
Proof. reflexivity. Qed.

Lemma append_assoc (x y z : string) :
  ((x ++ y) ++ z)%string = (x ++ y ++ z)%string.
Proof.
  induction x as [|c x IH]; [reflexivity|].
  by rewrite !append_cons, IH.
Qed.

Lemma cut_join (s : string) (sep : ascii) :
  schema.Count s sep <> 0%nat ->
  ((schema.cut s sep).1 ++ String sep (schema.cut s sep).2)%string = s.
Proof.
  induction s as [|c rest IH]; simpl; [done|].
  destruct (Ascii.eqb c sep) eqn:E.
  - intros _. apply Ascii.eqb_eq in E as ->. reflexivity.
  - intros H. simpl. by rewrite append_cons, IH.
Qed.

(** For an API version of the form group/version the text is the API
    version, a comma and the kind; an empty type prints as "/, Kind=". *)
Lemma GroupVersionKind_String_grouped (t : TypeMeta) :
  schema.Count (APIVersion t) "/" = 1%nat ->
  GroupVersionKind_String t = APIVersion t ++ ", Kind=" ++ Kind t.
Proof.
  intros Hc.
  unfold GroupVersionKind_String, schema.FromAPIVersionAndKind, schema.ParseGroupVersion.
  case_bool_decide as Hd.
  - destruct Hd as [H|H]; rewrite H in *; [discriminate Hc | reflexivity].
  - rewrite Hc. unfold schema.String. simpl.
    rewrite <- (cut_join (APIVersion t) "/") at 3 by (by rewrite Hc).
    by rewrite append_assoc, append_cons.
Qed.

Lemma GroupVersionKind_String_empty :
  GroupVersionKind_String {| Kind := EmptyString; APIVersion := EmptyString |} = "/, Kind=".
Proof. reflexivity. Qed.

(** ** Assignments to the annotations *)

Lemma setAnnotations_same (obj : Machine) :
  setAnnotations obj (Annotations (machineMeta obj)) = obj.
Proof. by destruct obj as [t [] s]. Qed.

Lemma setAnnotations_twice (obj : Machine) (a b : option (gmap string string)) :
  setAnnotations (setAnnotations obj a) b = setAnnotations obj b.
Proof. reflexivity. Qed.

Lemma Annotations_set (obj : Machine) (a : option (gmap string string)) :
  Annotations (machineMeta (setAnnotations obj a)) = a.
Proof. reflexivity. Qed.

Lemma objectKey_set (obj : Machine) (a : option (gmap string string)) :
  objectKey (setAnnotations obj a) = objectKey obj.
Proof. reflexivity. Qed.

Lemma Labels_set (obj : Machine) (a : option (gmap string string)) :
  Labels (machineMeta (setAnnotations obj a)) = Labels (machineMeta obj).
Proof. reflexivity. Qed.

Lemma Namespace_set (obj : Machine) (a : option (gmap string string)) :
  Namespace (machineMeta (setAnnotations obj a)) = Namespace (machineMeta obj).
Proof. reflexivity. Qed.

(** ** The two branches of the decision logic *)

Section Branches.

Variable AviClusterLabel : string.
Variable ClusterFinalizer : string.

Lemma reconcileNormal_absent (obj : Machine) (cluster : Cluster) :
  gomap.index (Annotations (machineMeta obj))
              clusterv1.PreTerminateDeleteHookAnnotationPrefix = None ->
  reconcileNormal obj cluster =
  (Return emptyResult None,
   setAnnotations obj
     (Some (<[preTerminateAnnotation := "ako-operator"]>
              (default ∅ (Annotations (machineMeta obj)))))).
Proof.
  intros H. unfold reconcileNormal. rewrite H.
  destruct (Annotations (machineMeta obj)) as [g|] eqn:E; simpl.
  - by rewrite E.
  - done.
Qed.

Lemma reconcileNormal_present (obj : Machine) (cluster : Cluster) :
  is_Some (gomap.index (Annotations (machineMeta obj))
                       clusterv1.PreTerminateDeleteHookAnnotationPrefix) ->
  reconcileNormal obj cluster = (Return emptyResult None, obj).
Proof. intros [v H]. unfold reconcileNormal. by rewrite H. Qed.

Lemma reconcileNormal_frame (obj obj' : Machine) (cluster : Cluster) (out : outcome) :
  reconcileNormal obj cluster = (out, obj') ->
  out = Return emptyResult None /\
  obj' = setAnnotations obj (Annotations (machineMeta obj')).
Proof.
  destruct (gomap.index (Annotations (machineMeta obj))
                        clusterv1.PreTerminateDeleteHookAnnotationPrefix) eqn:E.
  - rewrite reconcileNormal_present by eauto. intros [= <- <-].
    by rewrite setAnnotations_same.
  - rewrite reconcileNormal_absent by done. by intros [= <- <-].
Qed.

Lemma reconcileNormal_again (obj obj' : Machine) (cluster : Cluster) (out : outcome) :
  reconcileNormal obj cluster = (out, obj') ->
  reconcileNormal obj' cluster = (out, obj').
Proof.
  destruct (gomap.index (Annotations (machineMeta obj))
                        clusterv1.PreTerminateDeleteHookAnnotationPrefix) eqn:E.
  - rewrite reconcileNormal_present by eauto. intros [= <- <-].
    apply reconcileNormal_present. eauto.
  - rewrite reconcileNormal_absent by done. intros [= <- <-].
    rewrite reconcileNormal_absent.
    + simpl. by rewrite insert_insert_eq.
    + simpl. rewrite lookup_insert_ne by apply hook_is_not_prefix.
      by destruct (Annotations (machineMeta obj)).
Qed.

Lemma deletionHook_waits (obj : Machine) (cluster : Cluster) :
  controllerruntime.ContainsFinalizer cluster ClusterFinalizer = true ->
  reconcileMachineDeletionHook ClusterFinalizer obj cluster = (Return emptyResult None, obj).
Proof. intros H. unfold reconcileMachineDeletionHook. by rewrite H. Qed.

Lemma deletionHook_removes (obj : Machine) (cluster : Cluster) :
  controllerruntime.ContainsFinalizer cluster ClusterFinalizer = false ->
  reconcileMachineDeletionHook ClusterFinalizer obj cluster =
  (Return emptyResult None,
   setAnnotations obj (gomap.remove (Annotations (machineMeta obj)) preTerminateAnnotation)).
Proof.
  intros H. unfold reconcileMachineDeletionHook. rewrite H.
  destruct (annotations.HasWithPrefix _ _) eqn:E; [done|].
  f_equal. destruct (Annotations (machineMeta obj)) as [g|] eqn:Ea; simpl.
  - rewrite delete_id; [by rewrite <- Ea, setAnnotations_same|].
    destruct (g !! preTerminateAnnotation) eqn:Eh; [|done].
    rewrite HasWithPrefix_hook in E; [done | simpl; eauto].
  - by rewrite <- Ea, setAnnotations_same.
Qed.

Lemma deletionHook_frame (obj obj' : Machine) (cluster : Cluster) (out : outcome) :
  reconcileMachineDeletionHook ClusterFinalizer obj cluster = (out, obj') ->
  out = Return emptyResult None /\
  obj' = setAnnotations obj (Annotations (machineMeta obj')).
Proof.
  destruct (controllerruntime.ContainsFinalizer cluster ClusterFinalizer) eqn:E.
  - rewrite deletionHook_waits by done. intros [= <- <-].
    by rewrite setAnnotations_same.
  - rewrite deletionHook_removes by done. by intros [= <- <-].
Qed.

Lemma deletionHook_again (obj obj' : Machine) (cluster : Cluster) (out : outcome) :
  reconcileMachineDeletionHook ClusterFinalizer obj cluster = (out, obj') ->
  reconcileMachineDeletionHook ClusterFinalizer obj' cluster = (out, obj').
Proof.
  destruct (controllerruntime.ContainsFinalizer cluster ClusterFinalizer) eqn:E.
  - rewrite deletionHook_waits by done. intros [= <- <-].
    by apply deletionHook_waits.
  - rewrite deletionHook_removes by done. intros [= <- <-].
    rewrite deletionHook_removes by done. simpl.
    by rewrite remove_remove.
Qed.

(** *** The decision logic as a whole *)

Lemma reconcileBody_inScope (r : Client) (obj : Machine) (cluster : Cluster)
      (clusterName : string) :
  gomap.index (Labels (machineMeta obj)) clusterv1.ClusterLabelName = Some clusterName ->
  GetCluster r {| nnNamespace := Namespace (machineMeta obj); nnName := clusterName |}
    = inr cluster ->
  is_Some (gomap.index (Labels (clusterMeta cluster)) AviClusterLabel) ->
  reconcileBody AviClusterLabel ClusterFinalizer r obj =
  if deleting cluster then reconcileMachineDeletionHook ClusterFinalizer obj cluster
  else reconcileNormal obj cluster.
Proof.
  intros Hl Hc [v Hv]. unfold reconcileBody, deleting, reconcileClusterDelete.
  rewrite Hl, Hc, Hv.
  destruct (negb _).
  - destruct (reconcileMachineDeletionHook _ _ _) as [out obj'] eqn:E.
    by apply deletionHook_frame in E as [-> _].
  - destruct (reconcileNormal _ _) as [out obj'] eqn:E.
    by apply reconcileNormal_frame in E as [-> _].
Qed.

Lemma reconcileBody_frame (r : Client) (obj obj' : Machine) (out : outcome) :
  reconcileBody AviClusterLabel ClusterFinalizer r obj = (out, obj') ->
  (exists reterr, out = Return emptyResult reterr) /\
  obj' = setAnnotations obj (Annotations (machineMeta obj')).
Proof.
  unfold reconcileBody, reconcileClusterDelete.
  destruct (gomap.index (Labels _) _) as [clusterName|];
    [|intros [= <- <-]; rewrite setAnnotations_same; eauto].
  destruct (GetCluster _ _) as [err|cluster];
    [intros [= <- <-]; rewrite setAnnotations_same; eauto|].
  destruct (gomap.index (Labels _) _);
    [|intros [= <- <-]; rewrite setAnnotations_same; eauto].
  destruct (negb _).
  - destruct (reconcileMachineDeletionHook _ _ _) as [o m] eqn:E.
    apply deletionHook_frame in E as [-> E]. intros [= <- <-]. eauto.
  - destruct (reconcileNormal _ _) as [o m] eqn:E.
    apply reconcileNormal_frame in E as [-> E]. intros [= <- <-]. eauto.
Qed.

(** Running the decision logic on its own result, against a server that
    answers reads of Clusters as before, changes nothing. *)
Lemma reconcileBody_again (r r1 : Client) (obj obj' : Machine) (out : outcome) :
  clusters r1 = clusters r ->
  getClusterFault r1 = getClusterFault r ->
  reconcileBody AviClusterLabel ClusterFinalizer r obj = (out, obj') ->
  reconcileBody AviClusterLabel ClusterFinalizer r1 obj' = (out, obj').
Proof.
  intros Hc Hf H.
  destruct (reconcileBody_frame _ _ _ _ H) as [_ Hobj].
  assert (HL : Labels (machineMeta obj') = Labels (machineMeta obj))
    by (rewrite Hobj; apply Labels_set).
  assert (HN : Namespace (machineMeta obj') = Namespace (machineMeta obj))
    by (rewrite Hobj; apply Namespace_set).
  revert H. unfold reconcileBody, reconcileClusterDelete, GetCluster.
  rewrite HL, HN, Hc, Hf.
  destruct (gomap.index (Labels _) _) as [clusterName|]; [|by intros [= <- <-]].
  destruct (getClusterFault r) as [err|]; [by intros [= <- <-]|].
  destruct (clusters r !! _) as [cluster|]; [|by intros [= <- <-]].
  destruct (gomap.index (Labels _) _); [|by intros [= <- <-]].
  destruct (negb _).
  - destruct (reconcileMachineDeletionHook _ obj _) as [o m] eqn:E.
    destruct (deletionHook_frame _ _ _ _ E) as [-> _].
    intros [= <- <-]. by rewrite (deletionHook_again _ _ _ _ E).
  - destruct (reconcileNormal obj _) as [o m] eqn:E.
    destruct (reconcileNormal_frame _ _ _ _ E) as [-> _].
    intros [= <- <-]. by rewrite (reconcileNormal_again _ _ _ _ E).
Qed.

End Branches.

(** ** Reconcile *)

Section ReconcileProperties.

Variable AviClusterLabel : string.
Variable ClusterFinalizer : string.

Local Abbreviation reconcile := (Reconcile AviClusterLabel ClusterFinalizer).
Local Abbreviation body := (reconcileBody AviClusterLabel ClusterFinalizer).
Local Abbreviation in_scope := (inScope AviClusterLabel).
Local Abbreviation finalizer_present := (finalizerPresent ClusterFinalizer).

Lemma GetMachine_inr (r : Client) (req : NamespacedName) (obj : Machine) :
  GetMachine r req = inr obj <->
  getMachineFault r = None /\ machines r !! req = Some obj.
Proof.
  unfold GetMachine.
  destruct (getMachineFault r); [split; [done | by intros [? _]]|].
  destruct (machines r !! req); split; try done.
  - by intros [= ->].
  - by intros [_ [= ->]].
  - by intros [_ ?].
Qed.

Lemma Reconcile_fetched (r : Client) (req : NamespacedName) (obj obj' : Machine)
      (out : outcome) :
  GetMachine r req = inr obj ->
  body r obj = (out, obj') ->
  reconcile r req =
  match helperFault r with
  | Some err =>
      (Return emptyResult
         (Some (errors.Wrapf err
                  ("failed to init patch helper for "
                   ++ GroupVersionKind_String (machineType obj) ++ " "
                   ++ NamespacedName_String req))), r)
  | None => deferredPatch {| patch.before := obj |} obj' out r
  end.
Proof.
  intros Hg Hb. unfold Reconcile, patch.NewHelper. rewrite Hg.
  destruct (helperFault r); [done|]. by rewrite Hb.
Qed.

Lemma sendUpdate_ok (obj : Machine) (r r' : Client) :
  patch.sendUpdate obj r = (None, r') ->
  machines r' = <[objectKey obj := obj]> (machines r) /\
  clusters r' = clusters r /\
  getMachineFault r' = getMachineFault r /\
  getClusterFault r' = getClusterFault r /\
  helperFault r' = helperFault r /\
  diffFault r' = diffFault r /\
  applyFault r' = applyFault r /\
  updates r' = S (updates r).
Proof.
  unfold patch.sendUpdate. destruct (applyFault r) eqn:E; [done|].
  by intros [= <-].
Qed.

(** The call never panics. *)
Lemma Reconcile_returns (r : Client) (req : NamespacedName) :
  exists reterr, (reconcile r req).1 = Return emptyResult reterr.
Proof.
  destruct (GetMachine r req) as [err|obj] eqn:Hg.
  - unfold Reconcile. rewrite Hg. destruct (apierrors.IsNotFound err); eauto.
  - destruct (body r obj) as [out obj'] eqn:Hb.
    rewrite (Reconcile_fetched _ _ _ _ _ Hg Hb).
    destruct (helperFault r); [eauto|].
    destruct (reconcileBody_frame _ _ _ _ _ _ Hb) as [[e ->] _].
    unfold deferredPatch.
    destruct (patch.Patch _ _ _) as [[perr|] r']; destruct e; simpl; eauto.
Qed.

(** A call that returns a nil error leaves the object, as the decision
    logic left it, in the store: it was not changed, or it was written. *)
Lemma Reconcile_commit (r r' : Client) (req : NamespacedName) (obj obj' : Machine)
      (out o : outcome) :
  store_wf r ->
  GetMachine r req = inr obj ->
  body r obj = (out, obj') ->
  reconcile r req = (o, r') ->
  succeeded o ->
  o = Return emptyResult None /\ out = Return emptyResult None /\
  helperFault r = None /\ diffFault r = None /\
  ((obj' = obj /\ r' = r) \/ (obj' <> obj /\ patch.sendUpdate obj' r = (None, r'))) /\
  machines r' !! req = Some obj'.
Proof.
  intros Hwf Hg Hb. rewrite (Reconcile_fetched _ _ _ _ _ Hg Hb).
  destruct (reconcileBody_frame _ _ _ _ _ _ Hb) as [[e ->] Hobj].
  apply GetMachine_inr in Hg as [_ Hg].
  destruct (helperFault r); [by intros [= <- <-]|].
  unfold deferredPatch, patch.Patch, patch.diffIsEmpty. simpl.
  destruct (diffFault r); [by destruct e; intros [= <- <-]|].
  case_bool_decide as Hd.
  - subst obj'. intros [= <- <-] [= ->]. eauto 10.
  - destruct (patch.sendUpdate obj' r) as [[perr|] r1] eqn:Hs.
    + by destruct e; intros [= <- <-].
    + intros [= <- <-] [= ->]. split_and!; [done..|by right; split|].
      apply sendUpdate_ok in Hs as [-> _].
      assert (objectKey obj' = req) as ->; [|apply lookup_insert_eq].
      rewrite Hobj, objectKey_set. by apply Hwf.
Qed.

(** Against a server that answers the patch helper, the call returns what
    the decision logic returned. *)
Lemma Reconcile_healthy (r : Client) (req : NamespacedName) (obj obj' : Machine)
      (out : outcome) :
  helperFault r = None -> diffFault r = None -> applyFault r = None ->
  store_wf r ->
  GetMachine r req = inr obj ->
  body r obj = (out, obj') ->
  (reconcile r req).1 = out /\ machines (reconcile r req).2 !! req = Some obj'.
Proof.
  intros Hh Hd Ha Hwf Hg Hb. rewrite (Reconcile_fetched _ _ _ _ _ Hg Hb), Hh.
  destruct (reconcileBody_frame _ _ _ _ _ _ Hb) as [_ Hobj].
  apply GetMachine_inr in Hg as [_ Hg].
  unfold deferredPatch, patch.Patch, patch.diffIsEmpty, patch.sendUpdate.
  rewrite Hd, Ha. simpl. case_bool_decide as He; simpl.
  - by subst obj'.
  - split; [done|].
    assert (objectKey obj' = req) as ->; [|apply lookup_insert_eq].
    rewrite Hobj, objectKey_set. by apply Hwf.
Qed.

(** C1, as the code has it: when the deferred patch fails, Reconcile
    returns the failure of the patch if the decision logic returned a nil
    error, and the error of the decision logic if it returned one. *)
Theorem C1_commit_failure_precedence (r r' : Client) (req : NamespacedName)
        (obj obj' : Machine) (patchHelper : patch.Helper) (out : outcome)
        (commitErr : error) :
  GetMachine r req = inr obj ->
  patch.NewHelper obj r = inr patchHelper ->
  body r obj = (out, obj') ->
  patch.Patch patchHelper obj' r = (Some commitErr, r') ->
  reconcile r req =
  (match out with
   | Return res None => Return res (Some commitErr)
   | Return res (Some bodyErr) => Return res (Some bodyErr)
   | Panic msg => Panic msg
   end, r').
Proof.
  intros Hg Hh Hb Hp. unfold Reconcile.
  rewrite Hg, Hh, Hb. unfold deferredPatch. rewrite Hp.
  by destruct out as [res [bodyErr|]|msg].
Qed.

(** C5: when the owning Cluster lacks the feature label, the decision
    logic returns a nil error and leaves the Machine as it was, Reconcile
    leaves the store as it was and sends no update, whatever the deletion
    timestamp and the finalizers of the Cluster are; it returns a nil error
    when the patch helper can be set up and the diff can be computed. *)
Theorem C5_out_of_scope_untouched (r : Client) (req : NamespacedName) (obj : Machine)
        (clusterName : string) (cluster : Cluster) :
  GetMachine r req = inr obj ->
  gomap.index (Labels (machineMeta obj)) clusterv1.ClusterLabelName = Some clusterName ->
  GetCluster r {| nnNamespace := Namespace (machineMeta obj); nnName := clusterName |}
    = inr cluster ->
  gomap.index (Labels (clusterMeta cluster)) AviClusterLabel = None ->
  body r obj = (Return emptyResult None, obj) /\
  (reconcile r req).2 = r /\
  (helperFault r = None -> diffFault r = None ->
   (reconcile r req).1 = Return emptyResult None).
Proof.
  intros Hg Hl Hc Hv.
  assert (Hb : body r obj = (Return emptyResult None, obj)).
  { unfold reconcileBody. by rewrite Hl, Hc, Hv. }
  split; [done|].
  rewrite (Reconcile_fetched _ _ _ _ _ Hg Hb).
  unfold deferredPatch, patch.Patch, patch.diffIsEmpty. simpl.
  rewrite bool_decide_eq_true_2 by done.
  split.
  - by destruct (helperFault r), (diffFault r).
  - by intros -> ->.
Qed.

(** C6: a Machine that is not in the store makes reconcile return a nil
    error and leaves the store alone; so does every read error that is a
    NotFound; every other read error is returned as it is, the store left
    alone as well. *)
Theorem C6_machine_not_found (r : Client) (req : NamespacedName) :
  (getMachineFault r = None -> machines r !! req = None ->
   reconcile r req = (Return emptyResult None, r)) /\
  (forall err, GetMachine r req = inl err ->
     reconcile r req =
     (Return emptyResult (if apierrors.IsNotFound err then None else Some err), r)).
Proof.
  split.
  - intros Hf Hm. unfold Reconcile, GetMachine. by rewrite Hf, Hm.
  - intros err Hg. unfold Reconcile. rewrite Hg.
    by destruct (apierrors.IsNotFound err).
Qed.

Lemma body_in_scope (r : Client) (req : NamespacedName) (obj : Machine)
      (cluster : Cluster) :
  in_scope r req obj cluster ->
  body r obj =
  if deleting cluster then reconcileMachineDeletionHook ClusterFinalizer obj cluster
  else reconcileNormal obj cluster.
Proof.
  intros (_ & clusterName & Hl & Hc & Hv). by eapply reconcileBody_inScope.
Qed.

(** C3: after a call that returned a nil error, a second call with the
    same request returns the same result and leaves the store and the
    count of updates as they are; it fetches the object the first call
    left, its decision logic leaves that object as it is, and the diff of
    its patch step is empty. *)
Theorem C3_reconcile_idempotent (r r1 : Client) (req : NamespacedName) (o1 : outcome) :
  store_wf r ->
  reconcile r req = (o1, r1) ->
  succeeded o1 ->
  reconcile r1 req = (o1, r1) /\
  (forall obj out obj',
     GetMachine r req = inr obj -> body r obj = (out, obj') ->
     GetMachine r1 req = inr obj') /\
  (forall obj2 out2 obj2',
     GetMachine r1 req = inr obj2 -> body r1 obj2 = (out2, obj2') ->
     Annotations (machineMeta obj2') = Annotations (machineMeta obj2) /\
     patch.diffIsEmpty obj2 obj2' = true).
Proof.
  intros Hwf Hr Hs.
  destruct (GetMachine r req) as [err|obj] eqn:Hg.
  - assert (r1 = r) as ->.
    { revert Hr. unfold Reconcile. rewrite Hg.
      by destruct (apierrors.IsNotFound err); intros [= <- <-]. }
    split; [done|]. split; [done|]. intros ? ? ?. by rewrite Hg.
  - destruct (body r obj) as [out obj'] eqn:Hb.
    destruct (Reconcile_commit _ _ _ _ _ _ _ Hwf Hg Hb Hr Hs)
      as (-> & -> & Hh & Hd & [[-> ->]|[Hne Hu]] & Hm).
    + split; [done|]. split.
      * intros ? ? ? [= <-]. rewrite Hb. by intros [= _ <-].
      * intros ? ? ?. rewrite Hg. intros [= <-]. rewrite Hb. intros [= _ <-].
        split; [done|]. by apply bool_decide_eq_true_2.
    + destruct (sendUpdate_ok _ _ _ Hu) as (_ & Hc & Hgm & Hgc & Hh1 & Hd1 & _).
      assert (Hg1 : GetMachine r1 req = inr obj').
      { apply GetMachine_inr. split; [|done].
        rewrite Hgm. by apply GetMachine_inr in Hg as [-> _]. }
      assert (Hb1 : body r1 obj' = (Return emptyResult None, obj'))
        by (by eapply reconcileBody_again).
      split; [|split].
      * rewrite (Reconcile_fetched _ _ _ _ _ Hg1 Hb1), Hh1, Hh.
        unfold deferredPatch, patch.Patch, patch.diffIsEmpty. simpl.
        rewrite Hd1, Hd. by rewrite bool_decide_eq_true_2.
      * intros ? ? ? [= <-]. rewrite Hb. by intros [= _ <-].
      * intros ? ? ?. rewrite Hg1. intros [= <-]. rewrite Hb1. intros [= _ <-].
        split; [done|]. by apply bool_decide_eq_true_2.
Qed.

(** C4, as the code has it: after a call on an in-scope pair that returned
    a nil error, the stored Machine has no hook tag when the Cluster is
    being deleted and the finalizer is gone; it is as it was when the
    Cluster is being deleted and the finalizer is still there; it has the
    hook tag when the Cluster is not being deleted and no tag of the
    Machine has the bare prefix as its key. *)
Theorem C4_hook_follows_owner (r r' : Client) (req : NamespacedName) (obj : Machine)
        (cluster : Cluster) (out : outcome) :
  store_wf r ->
  in_scope r req obj cluster ->
  reconcile r req = (out, r') ->
  succeeded out ->
  exists obj',
    machines r' !! req = Some obj' /\
    (deleting cluster = true -> finalizer_present cluster = false ->
     hookPresent obj' = false) /\
    (deleting cluster = true -> finalizer_present cluster = true -> obj' = obj) /\
    (deleting cluster = false ->
     gomap.index (Annotations (machineMeta obj))
                 clusterv1.PreTerminateDeleteHookAnnotationPrefix = None ->
     hookPresent obj' = true).
Proof.
  intros Hwf Hin Hr Hs.
  destruct (body r obj) as [o obj'] eqn:Hb.
  destruct (Reconcile_commit _ _ _ _ _ _ _ Hwf (proj1 Hin) Hb Hr Hs)
    as (_ & _ & _ & _ & _ & Hm).
  exists obj'. split; [done|].
  rewrite (body_in_scope _ _ _ _ Hin) in Hb. unfold finalizerPresent.
  split_and!.
  - intros Hd Hf. rewrite Hd, deletionHook_removes in Hb by done.
    injection Hb as _ <-. unfold hookPresent. simpl.
    apply bool_decide_eq_false_2. rewrite index_remove_eq. by intros [].
  - intros Hd Hf. rewrite Hd, deletionHook_waits in Hb by done.
    by injection Hb as _ <-.
  - intros Hd Ha. rewrite Hd, reconcileNormal_absent in Hb by done.
    injection Hb as _ <-. unfold hookPresent. simpl.
    apply bool_decide_eq_true_2. rewrite lookup_insert_eq. eauto.
Qed.

(** C8: reconcileNormal looks up the bare prefix, not the hook key.  When
    no tag has the bare prefix as its key, it returns a nil error and the
    tags map the hook key to "ako-operator", and the Machine is as it was
    if the tags mapped the hook key to that value already.  When a tag has
    the bare prefix as its key, the Machine is left as it was. *)
Theorem C8_normal_reads_bare_prefix (obj : Machine) (cluster : Cluster) :
  (gomap.index (Annotations (machineMeta obj))
               clusterv1.PreTerminateDeleteHookAnnotationPrefix = None ->
   exists obj',
     reconcileNormal obj cluster = (Return emptyResult None, obj') /\
     gomap.index (Annotations (machineMeta obj')) preTerminateAnnotation
       = Some "ako-operator" /\
     (forall k, k <> preTerminateAnnotation ->
        gomap.index (Annotations (machineMeta obj')) k
        = gomap.index (Annotations (machineMeta obj)) k) /\
     (gomap.index (Annotations (machineMeta obj)) preTerminateAnnotation
        = Some "ako-operator" -> obj' = obj)) /\
  (is_Some (gomap.index (Annotations (machineMeta obj))
                        clusterv1.PreTerminateDeleteHookAnnotationPrefix) ->
   reconcileNormal obj cluster = (Return emptyResult None, obj)).
Proof.
  split; [|apply reconcileNormal_present].
  intros Ha. eexists. split; [by apply reconcileNormal_absent|]. simpl.
  split_and!.
  - apply lookup_insert_eq.
  - intros k Hk. rewrite lookup_insert_ne by done.
    by destruct (Annotations (machineMeta obj)).
  - destruct (Annotations (machineMeta obj)) as [g|] eqn:E; simpl; [|done].
    intros Hh. rewrite insert_id by done. by rewrite <- E, setAnnotations_same.
Qed.

(** C9: when the Cluster is being deleted and the finalizer is gone, the
    decision logic returns a nil error and removes the hook key of this
    operator and nothing else: every other tag and every other field of
    the Machine is as it was, also when the removal was set off by the hook
    of another controller.  A call that returns a nil error leaves that
    Machine in the store. *)
Theorem C9_only_own_hook_removed (r r' : Client) (req : NamespacedName) (obj : Machine)
        (cluster : Cluster) (out : outcome) :
  store_wf r ->
  in_scope r req obj cluster ->
  deleting cluster = true ->
  finalizer_present cluster = false ->
  exists obj',
    body r obj = (Return emptyResult None, obj') /\
    obj' = setAnnotations obj (Annotations (machineMeta obj')) /\
    gomap.index (Annotations (machineMeta obj')) preTerminateAnnotation = None /\
    (forall k, k <> preTerminateAnnotation ->
       gomap.index (Annotations (machineMeta obj')) k
       = gomap.index (Annotations (machineMeta obj)) k) /\
    (reconcile r req = (out, r') -> succeeded out -> machines r' !! req = Some obj').
Proof.
  intros Hwf Hin Hd Hf. eexists.
  assert (Hb := body_in_scope _ _ _ _ Hin).
  rewrite Hd, deletionHook_removes in Hb by done.
  split; [exact Hb|]. simpl. split_and!.
  - done.
  - apply index_remove_eq.
  - intros k Hk. by apply index_remove_ne.
  - intros Hr Hs.
    by destruct (Reconcile_commit _ _ _ _ _ _ _ Hwf (proj1 Hin) Hb Hr Hs)
      as (_ & _ & _ & _ & _ & Hm).
Qed.

(** C10: for an in-scope pair whose Cluster is not being deleted and whose
    Machine has a nil annotation map, reconcileNormal allocates the map and
    returns a nil error, and the map holds the hook entry and nothing else;
    Reconcile does not panic, and against a server that answers the patch
    helper it returns a nil error and stores that Machine. *)
Theorem C10_nil_annotations (r : Client) (req : NamespacedName) (obj : Machine)
        (cluster : Cluster) :
  store_wf r ->
  in_scope r req obj cluster ->
  deleting cluster = false ->
  Annotations (machineMeta obj) = None ->
  reconcileNormal obj cluster =
  (Return emptyResult None,
   setAnnotations obj (Some {[ preTerminateAnnotation := "ako-operator" ]})) /\
  (exists reterr, (reconcile r req).1 = Return emptyResult reterr) /\
  (helperFault r = None -> diffFault r = None -> applyFault r = None ->
   (reconcile r req).1 = Return emptyResult None /\
   machines (reconcile r req).2 !! req =
   Some (setAnnotations obj (Some {[ preTerminateAnnotation := "ako-operator" ]}))).
Proof.
  intros Hwf Hin Hd Ha.
  assert (Hn : reconcileNormal obj cluster =
               (Return emptyResult None,
                setAnnotations obj (Some {[ preTerminateAnnotation := "ako-operator" ]}))).
  { rewrite reconcileNormal_absent by by rewrite Ha.
    rewrite Ha. simpl. by rewrite insert_empty. }
  split; [done|]. split; [apply Reconcile_returns|].
  intros Hh Hdf Haf.
  assert (Hb := body_in_scope _ _ _ _ Hin). rewrite Hd, Hn in Hb.
  by apply (Reconcile_healthy _ _ _ _ _ Hh Hdf Haf Hwf (proj1 Hin) Hb).
Qed.

End ReconcileProperties.

(** ** The properties on the sample objects *)

Lemma sample_store_wf (a : option (gmap string string)) (c : Cluster)
      (helperErr diffErr applyErr : option error) :
  store_wf (sample.withFaults (sample.client (sample.machine a) c)
                              helperErr diffErr applyErr).
Proof.
  intros key obj H. simpl in H.
  by apply lookup_singleton_Some in H as [<- <-].
Qed.

Lemma sample_in_scope (a : option (gmap string string)) (deletion : option Z)
      (finalizers : list string) (helperErr diffErr applyErr : option error) :
  inScope sample.AviClusterLabel
          (sample.withFaults
             (sample.client (sample.machine a)
                            (sample.cluster sample.enabled deletion finalizers))
             helperErr diffErr applyErr)
          sample.req (sample.machine a)
          (sample.cluster sample.enabled deletion finalizers).
Proof.
  split; [reflexivity|]. exists "workload".
  split; [reflexivity|]. split; [reflexivity|]. by exists EmptyString.
Qed.

(** C1, as stated, fails: the Cluster of the Machine is gone, so the
    decision logic returns the NotFound error of the read; the patch then
    fails to compute its diff; Reconcile returns the error of the decision
    logic, not the failure of the patch. *)
Lemma C1_body_error_hides_commit_failure :
  let commitErr := errorString "cannot compute diff" in
  let bodyErr := apierrors.NewNotFound "clusters" "workload" in
  let obj := sample.machine None in
  let r := sample.brokenClient obj commitErr in
  GetMachine r sample.req = inr obj /\
  reconcileBody sample.AviClusterLabel sample.ClusterFinalizer r obj
    = (Return emptyResult (Some bodyErr), obj) /\
  patch.Patch {| patch.before := obj |} obj r = (Some commitErr, r) /\
  Reconcile sample.AviClusterLabel sample.ClusterFinalizer r sample.req
    = (Return emptyResult (Some bodyErr), r) /\
  bodyErr <> commitErr.
Proof. by split_and!. Qed.

Lemma C1_commit_failure_precedence_witness :
  let commitErr := errorString "cannot compute diff" in
  let obj := sample.machine None in
  let r := sample.withFaults
             (sample.client obj (sample.cluster sample.enabled None []))
             None (Some commitErr) None in
  reconcileBody sample.AviClusterLabel sample.ClusterFinalizer r obj
    = (Return emptyResult None, sample.machine (Some sample.hookOnly)) /\
  Reconcile sample.AviClusterLabel sample.ClusterFinalizer r sample.req
    = (Return emptyResult (Some commitErr), r).
Proof.
  intros commitErr obj r. split; [reflexivity|].
  apply (C1_commit_failure_precedence
           sample.AviClusterLabel sample.ClusterFinalizer r r sample.req
           obj (sample.machine (Some sample.hookOnly)) {| patch.before := obj |}
           (Return emptyResult None) commitErr); reflexivity.
Defined.

(** C2 at the input where the code departs from the table: the Cluster is
    not being deleted, the Machine has no hook tag but a tag whose key is
    the bare prefix; Reconcile returns a nil error, sends no update, and
    the Machine is still without the hook tag. *)
Theorem C2_bare_prefix_tag_blocks_hook :
  let obj := sample.machine (Some sample.bareOnly) in
  let cluster := sample.cluster sample.enabled None [] in
  let r := sample.client obj cluster in
  inScope sample.AviClusterLabel r sample.req obj cluster /\
  deleting cluster = false /\
  hookPresent obj = false /\
  Reconcile sample.AviClusterLabel sample.ClusterFinalizer r sample.req
    = (Return emptyResult None, r) /\
  machines r !! sample.req = Some obj.
Proof.
  intros obj cluster r. split; [|by split_and!].
  apply (sample_in_scope (Some sample.bareOnly) None [] None None None).
Qed.

Lemma C3_reconcile_idempotent_witness :
  let r := sample.client (sample.machine None) (sample.cluster sample.enabled None []) in
  let first := Reconcile sample.AviClusterLabel sample.ClusterFinalizer r sample.req in
  first.1 = Return emptyResult None /\
  updates first.2 = 1 /\
  Reconcile sample.AviClusterLabel sample.ClusterFinalizer first.2 sample.req = first.
Proof.
  intros r first. split; [reflexivity|]. split; [reflexivity|].
  apply (C3_reconcile_idempotent
           sample.AviClusterLabel sample.ClusterFinalizer r first.2 sample.req first.1).
  - apply (sample_store_wf None _ None None None).
  - reflexivity.
  - reflexivity.
Defined.

(** C4, as stated, fails: the Cluster is being deleted and still has the
    finalizer, the Machine has no hook tag; Reconcile returns a nil error
    and the Machine stays without the hook tag, although the Cluster is not
    in the state of being deleted with the finalizer gone. *)
Lemma C4_waiting_owner_without_hook :
  let obj := sample.machine None in
  let cluster := sample.cluster sample.enabled sample.someTime [sample.ClusterFinalizer] in
  let r := sample.client obj cluster in
  inScope sample.AviClusterLabel r sample.req obj cluster /\
  Reconcile sample.AviClusterLabel sample.ClusterFinalizer r sample.req
    = (Return emptyResult None, r) /\
  machines r !! sample.req = Some obj /\
  ~ (hookPresent obj = true <->
     ~ (deleting cluster = true /\
        finalizerPresent sample.ClusterFinalizer cluster = false)).
Proof.
  intros obj cluster r. split_and!; [|done..|].
  - apply (sample_in_scope None sample.someTime [sample.ClusterFinalizer] None None None).
  - intros [_ H]. assert (hookPresent obj = true) as Hp; [|done].
    apply H. by intros [_ ?].
Qed.

Lemma C4_hook_follows_owner_witness :
  let r := sample.client (sample.machine (Some sample.twoHooks))
                         (sample.cluster sample.enabled sample.someTime []) in
  exists obj',
    machines (Reconcile sample.AviClusterLabel sample.ClusterFinalizer r sample.req).2
      !! sample.req = Some obj' /\
    hookPresent obj' = false.
Proof.
  intros r.
  destruct (C4_hook_follows_owner
              sample.AviClusterLabel sample.ClusterFinalizer r
              (Reconcile sample.AviClusterLabel sample.ClusterFinalizer r sample.req).2
              sample.req (sample.machine (Some sample.twoHooks))
              (sample.cluster sample.enabled sample.someTime [])
              (Reconcile sample.AviClusterLabel sample.ClusterFinalizer r sample.req).1)
    as (obj' & Hm & Hgone & _).
  - apply (sample_store_wf _ _ None None None).
  - apply (sample_in_scope _ _ _ None None None).
  - reflexivity.
  - reflexivity.
  - exists obj'. split; [exact Hm|]. apply Hgone; reflexivity.
Defined.

Lemma C5_out_of_scope_untouched_witness :
  let obj := sample.machine (Some sample.twoHooks) in
  let cluster := sample.cluster (Some ∅) sample.someTime [] in
  let r := sample.client obj cluster in
  deleting cluster = true /\
  finalizerPresent sample.ClusterFinalizer cluster = false /\
  reconcileBody sample.AviClusterLabel sample.ClusterFinalizer r obj
    = (Return emptyResult None, obj) /\
  (Reconcile sample.AviClusterLabel sample.ClusterFinalizer r sample.req).2 = r /\
  (Reconcile sample.AviClusterLabel sample.ClusterFinalizer r sample.req).1
    = Return emptyResult None.
Proof.
  intros obj cluster r. split; [reflexivity|]. split; [reflexivity|].
  destruct (C5_out_of_scope_untouched
              sample.AviClusterLabel sample.ClusterFinalizer r sample.req obj
              "workload" cluster)
    as (Hbody & Hstore & Hnil); [reflexivity..|].
  split; [exact Hbody|]. split; [exact Hstore|]. apply Hnil; reflexivity.
Defined.

Lemma C6_machine_not_found_witness :
  let timeout := StatusError StatusReasonTimeout "request timed out" in
  Reconcile sample.AviClusterLabel sample.ClusterFinalizer
            (sample.failingClient None) sample.req
    = (Return emptyResult None, sample.failingClient None) /\
  Reconcile sample.AviClusterLabel sample.ClusterFinalizer
            (sample.failingClient (Some timeout)) sample.req
    = (Return emptyResult (Some timeout), sample.failingClient (Some timeout)).
Proof.
  intros timeout. split.
  - apply (proj1 (C6_machine_not_found
                    sample.AviClusterLabel sample.ClusterFinalizer
                    (sample.failingClient None) sample.req)); reflexivity.
  - apply (proj2 (C6_machine_not_found
                    sample.AviClusterLabel sample.ClusterFinalizer
                    (sample.failingClient (Some timeout)) sample.req) timeout).
    reflexivity.
Defined.

Lemma C8_normal_reads_bare_prefix_witness :
  let cluster := sample.cluster sample.enabled None [] in
  (exists obj',
     reconcileNormal (sample.machine (Some sample.hookOnly)) cluster
       = (Return emptyResult None, obj') /\
     gomap.index (Annotations (machineMeta obj')) preTerminateAnnotation
       = Some "ako-operator" /\
     obj' = sample.machine (Some sample.hookOnly)) /\
  reconcileNormal (sample.machine (Some sample.bareOnly)) cluster
    = (Return emptyResult None, sample.machine (Some sample.bareOnly)).
Proof.
  intros cluster. split.
  - destruct (proj1 (C8_normal_reads_bare_prefix
                       (sample.machine (Some sample.hookOnly)) cluster))
      as (obj' & Hrun & Hhook & _ & Hsame); [reflexivity|].
    exists obj'. split; [exact Hrun|]. split; [exact Hhook|].
    apply Hsame. reflexivity.
  - apply (proj2 (C8_normal_reads_bare_prefix
                    (sample.machine (Some sample.bareOnly)) cluster)).
    exists "other". reflexivity.
Defined.

Lemma C9_only_own_hook_removed_witness :
  let obj := sample.machine (Some sample.twoHooks) in
  let cluster := sample.cluster sample.enabled sample.someTime [] in
  let r := sample.client obj cluster in
  exists obj',
    reconcileBody sample.AviClusterLabel sample.ClusterFinalizer r obj
      = (Return emptyResult None, obj') /\
    gomap.index (Annotations (machineMeta obj')) preTerminateAnnotation = None /\
    gomap.index (Annotations (machineMeta obj'))
                "pre-terminate.delete.hook.machine.cluster.x-k8s.io/drain"
      = Some "other-controller" /\
    gomap.index (Annotations (machineMeta obj')) "owner" = Some "team-a" /\
    machines (Reconcile sample.AviClusterLabel sample.ClusterFinalizer r sample.req).2
      !! sample.req = Some obj'.
Proof.
  intros obj cluster r.
  destruct (C9_only_own_hook_removed
              sample.AviClusterLabel sample.ClusterFinalizer r
              (Reconcile sample.AviClusterLabel sample.ClusterFinalizer r sample.req).2
              sample.req obj cluster
              (Reconcile sample.AviClusterLabel sample.ClusterFinalizer r sample.req).1)
    as (obj' & Hbody & _ & Hgone & Hothers & Hstored).
  - apply (sample_store_wf _ _ None None None).
  - apply (sample_in_scope _ _ _ None None None).
  - reflexivity.
  - reflexivity.
  - exists obj'. split; [exact Hbody|]. split; [exact Hgone|].
    split; [rewrite Hothers; [reflexivity | discriminate]|].
    split; [rewrite Hothers; [reflexivity | discriminate]|].
    apply Hstored; reflexivity.
Defined.

Lemma C10_nil_annotations_witness :
  let obj := sample.machine None in
  let cluster := sample.cluster sample.enabled None [sample.ClusterFinalizer] in
  let r := sample.client obj cluster in
  reconcileNormal obj cluster
    = (Return emptyResult None, sample.machine (Some sample.hookOnly)) /\
  (Reconcile sample.AviClusterLabel sample.ClusterFinalizer r sample.req).1
    = Return emptyResult None /\
  machines (Reconcile sample.AviClusterLabel sample.ClusterFinalizer r sample.req).2
    !! sample.req = Some (sample.machine (Some sample.hookOnly)).
Proof.
  intros obj cluster r.
  destruct (C10_nil_annotations
              sample.AviClusterLabel sample.ClusterFinalizer r sample.req obj cluster)
    as (Hnormal & _ & Hrun).
  - apply (sample_store_wf _ _ None None None).
  - apply (sample_in_scope _ _ _ None None None).
  - reflexivity.
  - reflexivity.
  - split; [exact Hnormal|]. apply Hrun; reflexivity.
Defined.

(** ** The renderer *)

Lemma parseCidrs_valid (field : string) (cidrs : list string) :
  Forall (fun cidr => is_Some (bootstrap_cluster.ParseCIDR cidr)) cidrs <->
  exists ranges, bootstrap_cluster.parseCidrs field cidrs = inr ranges.
Proof.
  induction cidrs as [|cidr rest IH]; simpl.
  - split; [eauto | constructor].
  - destruct (bootstrap_cluster.ParseCIDR cidr) as [n|] eqn:E.
    + destruct (bootstrap_cluster.parseCidrs field rest) as [e|ns] eqn:Er.
      * split.
        -- intros H. apply Forall_cons in H as [_ H].
           apply IH in H as [? H]. congruence.
        -- by intros [? [=]].
      * split; [eauto|]. intros _. constructor; [rewrite E; eauto|]. apply IH. eauto.
    + split.
      * intros H. apply Forall_cons in H as [[? H] _]. congruence.
      * by intros [? [=]].
Qed.

Lemma parseNodeNetworks_valid (nets : list akoov1alpha1.NodeNetwork) :
  Forall (fun net =>
            Forall (fun cidr => is_Some (bootstrap_cluster.ParseCIDR cidr))
                   (akoov1alpha1.Cidrs net)) nets <->
  exists ranges, bootstrap_cluster.parseNodeNetworks nets = inr ranges.
Proof.
  induction nets as [|net rest IH]; simpl.
  - split; [eauto | constructor].
  - destruct (bootstrap_cluster.parseCidrs _ (akoov1alpha1.Cidrs net)) as [e|ns] eqn:E.
    + split.
      * intros H. apply Forall_cons in H as [H _].
        eapply parseCidrs_valid in H as [? H]. rewrite E in H. discriminate H.
      * by intros [? [=]].
    + destruct (bootstrap_cluster.parseNodeNetworks rest) as [e|others] eqn:Er.
      * split.
        -- intros H. apply Forall_cons in H as [_ H].
           apply IH in H as [? H]. congruence.
        -- by intros [? [=]].
      * split; [eauto|]. intros _. constructor.
        -- eapply parseCidrs_valid. eauto.
        -- apply IH. eauto.
Qed.

(** C7: whatever the template, the environment and the rest of the
    configuration are, the renderer fails on a configuration whose
    data-network CIDR is "test", and on one whose data-network CIDR is any
    other string that is not a network range, with the error that names
    the field and without any output.  With the CIDR set to "10.0.0.0/24"
    it succeeds exactly when the node-network CIDRs of the configuration
    are network ranges, and its output is the template filled with the
    fields of the configuration, the name of the management cluster and
    the range 10.0.0.0/24. *)
Theorem C7_render_validates_data_network
        (manifestTemplate : bootstrap_cluster.Values -> string)
        (ManagementClusterName : string) (env : gmap string string)
        (obj : akoov1alpha1.AKODeploymentConfig) :
  bootstrap_cluster.ConvertToAKODeploymentYaml
    manifestTemplate ManagementClusterName env
    (bootstrap_cluster.setDataNetworkCIDR obj "test")
    = inl (bootstrap_cluster.InvalidNetworkRange "dataNetwork.cidr" "test") /\
  (forall cidr,
     bootstrap_cluster.ParseCIDR cidr = None ->
     bootstrap_cluster.ConvertToAKODeploymentYaml
       manifestTemplate ManagementClusterName env
       (bootstrap_cluster.setDataNetworkCIDR obj cidr)
       = inl (bootstrap_cluster.InvalidNetworkRange "dataNetwork.cidr" cidr)) /\
  (bootstrap_cluster.nodeNetworksValid obj <->
   exists values,
     bootstrap_cluster.ConvertToAKODeploymentYaml
       manifestTemplate ManagementClusterName env
       (bootstrap_cluster.setDataNetworkCIDR obj "10.0.0.0/24")
       = inr (manifestTemplate values) /\
     bootstrap_cluster.config values
       = akoov1alpha1.Spec (bootstrap_cluster.setDataNetworkCIDR obj "10.0.0.0/24") /\
     bootstrap_cluster.managementClusterName values
       = bootstrap_cluster.Getenv env ManagementClusterName /\
     bootstrap_cluster.dataNetworkRange values
       = {| bootstrap_cluster.address := [10; 0; 0; 0]%N;
            bootstrap_cluster.prefixLength := 24 |}).
Proof.
  unfold bootstrap_cluster.ConvertToAKODeploymentYaml,
    bootstrap_cluster.RenderManifest, bootstrap_cluster.PopulateValues.
  split; [reflexivity|]. split.
  - intros cidr H. simpl. by rewrite H.
  - unfold bootstrap_cluster.nodeNetworksValid. rewrite parseNodeNetworks_valid.
    simpl.
    change (bootstrap_cluster.ParseCIDR "10.0.0.0/24")
      with (Some {| bootstrap_cluster.address := [10; 0; 0; 0]%N;
                    bootstrap_cluster.prefixLength := 24 |}).
    destruct (bootstrap_cluster.parseNodeNetworks _) as [e|ranges].
    + split; [by intros [? [=]] | by intros (? & [=] & _)].
    + split; [|eauto]. intros _. eexists. split; [reflexivity|]. done.
Qed.

Lemma C7_render_validates_data_network_witness :
  let template := fun values =>
    ("cluster: " ++ bootstrap_cluster.managementClusterName values)%string in
  let env : gmap string string := {[ "MANAGEMENT_CLUSTER_NAME" := "test" ]} in
  bootstrap_cluster.ConvertToAKODeploymentYaml
    template "MANAGEMENT_CLUSTER_NAME" env (bootstrap_cluster.testConfig "test")
    = inl (bootstrap_cluster.InvalidNetworkRange "dataNetwork.cidr" "test") /\
  bootstrap_cluster.ConvertToAKODeploymentYaml
    template "MANAGEMENT_CLUSTER_NAME" env (bootstrap_cluster.testConfig "10.0.0.256/24")
    = inl (bootstrap_cluster.InvalidNetworkRange "dataNetwork.cidr" "10.0.0.256/24") /\
  bootstrap_cluster.ConvertToAKODeploymentYaml
    template "MANAGEMENT_CLUSTER_NAME" env (bootstrap_cluster.testConfig "10.0.0.0/24")
    = inr "cluster: test".
Proof.
  intros template env.
  destruct (C7_render_validates_data_network
              template "MANAGEMENT_CLUSTER_NAME" env
              (bootstrap_cluster.testConfig "test"))
    as (Hfail & Hinvalid & Hok).
  split; [exact Hfail|].
  split; [apply (Hinvalid "10.0.0.256/24"); reflexivity|].
  destruct (proj1 Hok) as (values & Hrun & _ & Hname & _).
  - repeat constructor; by eexists.
  - change (bootstrap_cluster.testConfig "10.0.0.0/24")
      with (bootstrap_cluster.setDataNetworkCIDR
              (bootstrap_cluster.testConfig "test") "10.0.0.0/24").
    rewrite Hrun. unfold template. rewrite Hname. reflexivity.
Defined.

(** * Further properties of the reconciler *)

Section Paths.

Variable AviClusterLabel : string.
Variable ClusterFinalizer : string.

Local Abbreviation reconcile := (Reconcile AviClusterLabel ClusterFinalizer).
Local Abbreviation body := (reconcileBody AviClusterLabel ClusterFinalizer).
Local Abbreviation deletionHook := (reconcileMachineDeletionHook ClusterFinalizer).

(** The object the decision logic leaves is the fetched one, the one
    reconcileNormal leaves, or the one the deletion hook leaves. *)
Lemma body_obj_cases (r : Client) (obj : Machine) :
  (body r obj).2 = obj \/
  (exists cluster, (body r obj).2 = (reconcileNormal obj cluster).2) \/
  (exists cluster, (body r obj).2 = (deletionHook obj cluster).2).
Proof.
  unfold reconcileBody, reconcileClusterDelete.
  destruct (gomap.index (Labels _) _) as [clusterName|]; [|by left].
  destruct (GetCluster _ _) as [err|cluster]; [by left|].
  destruct (gomap.index (Labels _) _); [|by left].
  destruct (negb _).
  - right; right. exists cluster.
    by destruct (reconcileMachineDeletionHook _ _ _) as [[res [e|]|msg] m].
  - right; left. exists cluster.
    by destruct (reconcileNormal _ _) as [[res [e|]|msg] m].
Qed.

Lemma normal_obj (obj : Machine) (cluster : Cluster) :
  (reconcileNormal obj cluster).2 = obj \/
  (reconcileNormal obj cluster).2 =
  setAnnotations obj
    (Some (<[preTerminateAnnotation := "ako-operator"]>
             (default ∅ (Annotations (machineMeta obj))))).
Proof.
  destruct (gomap.index (Annotations (machineMeta obj))
                        clusterv1.PreTerminateDeleteHookAnnotationPrefix) eqn:E.
  - left. rewrite reconcileNormal_present; eauto.
  - right. by rewrite reconcileNormal_absent.
Qed.

Lemma deletionHook_obj (obj : Machine) (cluster : Cluster) :
  (deletionHook obj cluster).2 = obj \/
  (deletionHook obj cluster).2 =
  setAnnotations obj (gomap.remove (Annotations (machineMeta obj)) preTerminateAnnotation).
Proof.
  destruct (controllerruntime.ContainsFinalizer cluster ClusterFinalizer) eqn:E.
  - left. by rewrite deletionHook_waits.
  - right. by rewrite deletionHook_removes.
Qed.

(** Neither branch function ever returns an error or panics, and every
    path of Reconcile returns the empty Result: the reconciler never
    panics and never asks for a requeue. *)
Theorem Reconcile_never_requeues (r : Client) (req : NamespacedName)
        (obj : Machine) (cluster : Cluster) :
  (reconcileNormal obj cluster).1 = Return emptyResult None /\
  (deletionHook obj cluster).1 = Return emptyResult None /\
  (reconcileClusterDelete ClusterFinalizer obj cluster).1 = Return emptyResult None /\
  exists reterr, (reconcile r req).1 = Return emptyResult reterr.
Proof.
  split_and!.
  - destruct (reconcileNormal obj cluster) as [o m] eqn:E.
    by apply reconcileNormal_frame in E as [-> _].
  - destruct (deletionHook obj cluster) as [o m] eqn:E.
    by apply deletionHook_frame in E as [-> _].
  - unfold reconcileClusterDelete.
    destruct (deletionHook obj cluster) as [o m] eqn:E.
    by apply deletionHook_frame in E as [-> _].
  - apply Reconcile_returns.
Qed.

(** A Machine without the cluster-name label is skipped: the decision
    logic returns a nil error and leaves it as it was without reading any
    Cluster, Reconcile leaves the store as it was, and returns a nil error
    when the patch helper can be set up and the diff can be computed. *)
Theorem unlabelled_machine_skipped (r : Client) (req : NamespacedName) (obj : Machine) :
  GetMachine r req = inr obj ->
  gomap.index (Labels (machineMeta obj)) clusterv1.ClusterLabelName = None ->
  body r obj = (Return emptyResult None, obj) /\
  (reconcile r req).2 = r /\
  (helperFault r = None -> diffFault r = None ->
   (reconcile r req).1 = Return emptyResult None).
Proof.
  intros Hg Hl.
  assert (Hb : body r obj = (Return emptyResult None, obj)).
  { unfold reconcileBody. by rewrite Hl. }
  split; [done|].
  rewrite (Reconcile_fetched _ _ _ _ _ _ _ Hg Hb).
  unfold deferredPatch, patch.Patch, patch.diffIsEmpty. simpl.
  rewrite bool_decide_eq_true_2 by done.
  split.
  - by destruct (helperFault r), (diffFault r).
  - by intros -> ->.
Qed.

(** An error of the read of the Cluster, a NotFound as well, is returned
    as it is, whether the patch then fails or not, and the store is left
    as it was: no update is sent. *)
Theorem cluster_read_error_returned (r : Client) (req : NamespacedName) (obj : Machine)
        (clusterName : string) (err : error) :
  GetMachine r req = inr obj ->
  gomap.index (Labels (machineMeta obj)) clusterv1.ClusterLabelName = Some clusterName ->
  GetCluster r {| nnNamespace := Namespace (machineMeta obj); nnName := clusterName |}
    = inl err ->
  helperFault r = None ->
  body r obj = (Return emptyResult (Some err), obj) /\
  reconcile r req = (Return emptyResult (Some err), r).
Proof.
  intros Hg Hl Hc Hh.
  assert (Hb : body r obj = (Return emptyResult (Some err), obj)).
  { unfold reconcileBody. by rewrite Hl, Hc. }
  split; [done|].
  rewrite (Reconcile_fetched _ _ _ _ _ _ _ Hg Hb), Hh.
  unfold deferredPatch, patch.Patch, patch.diffIsEmpty. simpl.
  rewrite bool_decide_eq_true_2 by done.
  by destruct (diffFault r).
Qed.

(** Every error Reconcile returns comes from one of five places: the read
    of the Machine (when it is not a NotFound), the set-up of the patch
    helper (wrapped with a message), the read of the Cluster, the
    computation of the diff, or the update request. *)
Theorem reconcile_error_provenance (r : Client) (req : NamespacedName)
        (res : Result) (e : error) :
  (reconcile r req).1 = Return res (Some e) ->
  (GetMachine r req = inl e /\ apierrors.IsNotFound e = false) \/
  (exists obj cause,
     GetMachine r req = inr obj /\ helperFault r = Some cause /\
     e = errors.Wrapf cause
           ("failed to init patch helper for "
            ++ GroupVersionKind_String (machineType obj) ++ " "
            ++ NamespacedName_String req)) \/
  (exists obj clusterName,
     GetMachine r req = inr obj /\
     gomap.index (Labels (machineMeta obj)) clusterv1.ClusterLabelName
       = Some clusterName /\
     GetCluster r {| nnNamespace := Namespace (machineMeta obj); nnName := clusterName |}
       = inl e) \/
  diffFault r = Some e \/
  applyFault r = Some e.
Proof.
  destruct (GetMachine r req) as [err|obj] eqn:Hg.
  - unfold Reconcile. rewrite Hg.
    destruct (apierrors.IsNotFound err) eqn:En; [done|].
    intros [= _ ->]. by left.
  - destruct (body r obj) as [out obj'] eqn:Hb.
    rewrite (Reconcile_fetched _ _ _ _ _ _ _ Hg Hb).
    destruct (helperFault r) as [cause|] eqn:Hh.
    { intros [= _ <-]. right; left. by exists obj, cause. }
    assert (Hout : (exists res', out = Return res' None) \/
                   (exists clusterName,
                      gomap.index (Labels (machineMeta obj)) clusterv1.ClusterLabelName
                        = Some clusterName /\
                      exists err,
                        GetCluster r {| nnNamespace := Namespace (machineMeta obj);
                                        nnName := clusterName |} = inl err /\
                        out = Return emptyResult (Some err))).
    { revert Hb. unfold reconcileBody, reconcileClusterDelete.
      destruct (gomap.index (Labels _) _) as [clusterName|];
        [|intros [= <- _]; eauto].
      destruct (GetCluster _ _) as [err|cluster] eqn:Hc;
        [intros [= <- _]; right; eauto|].
      destruct (gomap.index (Labels _) _); [|intros [= <- _]; eauto].
      destruct (negb _).
      - destruct (reconcileMachineDeletionHook _ _ _) as [o m] eqn:E.
        apply deletionHook_frame in E as [-> _]. intros [= <- _]. eauto.
      - destruct (reconcileNormal _ _) as [o m] eqn:E.
        apply reconcileNormal_frame in E as [-> _]. intros [= <- _]. eauto. }
    unfold deferredPatch, patch.Patch, patch.sendUpdate.
    destruct Hout as [[res' ->]|(clusterName & Hl & err & Hc & ->)].
    + destruct (diffFault r) as [de|] eqn:Hd; [intros [= _ <-]; eauto 6|].
      destruct (patch.diffIsEmpty _ _); [done|].
      destruct (applyFault r) as [ae|] eqn:Ha; [|done].
      intros [= _ <-]. eauto 6.
    + intros He. right; right; left. exists obj, clusterName.
      split_and!; [done..|]. rewrite Hc. f_equal.
      revert He.
      destruct (diffFault r); [by intros [= _ <-]|].
      destruct (patch.diffIsEmpty _ _); [by intros [= _ <-]|].
      destruct (applyFault r); by intros [= _ <-].
Qed.

(** On every path the decision logic changes nothing but the annotations,
    and of the annotations nothing but the hook key of this operator, whose
    value afterwards is the old one, "ako-operator", or none. *)
Theorem decision_only_changes_hook_tag (r : Client) (obj : Machine) :
  (body r obj).2 = setAnnotations obj (Annotations (machineMeta (body r obj).2)) /\
  (forall k, k <> preTerminateAnnotation ->
     gomap.index (Annotations (machineMeta (body r obj).2)) k
     = gomap.index (Annotations (machineMeta obj)) k) /\
  (gomap.index (Annotations (machineMeta (body r obj).2)) preTerminateAnnotation
     = gomap.index (Annotations (machineMeta obj)) preTerminateAnnotation \/
   gomap.index (Annotations (machineMeta (body r obj).2)) preTerminateAnnotation
     = Some "ako-operator" \/
   gomap.index (Annotations (machineMeta (body r obj).2)) preTerminateAnnotation = None).
Proof.
  assert (Hcases :
            (body r obj).2 = obj \/
            (body r obj).2 =
              setAnnotations obj
                (Some (<[preTerminateAnnotation := "ako-operator"]>
                         (default ∅ (Annotations (machineMeta obj))))) \/
            (body r obj).2 =
              setAnnotations obj
                (gomap.remove (Annotations (machineMeta obj)) preTerminateAnnotation)).
  { destruct (body_obj_cases r obj) as [H|[[c H]|[c H]]]; [by left|..].
    - rewrite H. destruct (normal_obj obj c) as [->| ->]; eauto.
    - rewrite H. destruct (deletionHook_obj obj c) as [->| ->]; eauto. }
  destruct Hcases as [->|[->| ->]]; simpl.
  - split; [by rewrite setAnnotations_same|]. eauto.
  - split; [done|]. split.
    + intros k Hk. rewrite lookup_insert_ne by done.
      by destruct (Annotations (machineMeta obj)).
    + right; left. apply lookup_insert_eq.
  - split; [done|]. split.
    + intros k Hk. by apply index_remove_ne.
    + right; right. apply index_remove_eq.
Qed.

(** The decision logic is idempotent on every path, the failing ones too:
    run on the object it left, it returns the same result and leaves the
    same object. *)
Theorem decision_idempotent (r : Client) (obj : Machine) :
  body r (body r obj).2 = body r obj.
Proof.
  destruct (body r obj) as [out obj'] eqn:Hb. simpl.
  by apply (reconcileBody_again _ _ r r obj obj' out).
Qed.

Lemma sendUpdate_frame (obj : Machine) (r : Client) :
  clusters (patch.sendUpdate obj r).2 = clusters r /\
  getMachineFault (patch.sendUpdate obj r).2 = getMachineFault r /\
  getClusterFault (patch.sendUpdate obj r).2 = getClusterFault r /\
  helperFault (patch.sendUpdate obj r).2 = helperFault r /\
  diffFault (patch.sendUpdate obj r).2 = diffFault r /\
  applyFault (patch.sendUpdate obj r).2 = applyFault r /\
  updates (patch.sendUpdate obj r).2 = S (updates r) /\
  (machines (patch.sendUpdate obj r).2 = machines r \/
   machines (patch.sendUpdate obj r).2 = <[objectKey obj := obj]> (machines r)).
Proof.
  unfold patch.sendUpdate. destruct (applyFault r) eqn:E; simpl; rewrite ?E; eauto 10.
Qed.

(** The store after the call is the store before it, or the one an update
    request for the object of the decision logic leaves. *)
Lemma Reconcile_store_cases (r : Client) (req : NamespacedName) :
  (reconcile r req).2 = r \/
  exists obj,
    GetMachine r req = inr obj /\
    (reconcile r req).2 = (patch.sendUpdate (body r obj).2 r).2.
Proof.
  destruct (GetMachine r req) as [err|obj] eqn:Hg.
  - left. unfold Reconcile. rewrite Hg. by destruct (apierrors.IsNotFound err).
  - destruct (body r obj) as [out obj'] eqn:Hb.
    rewrite (Reconcile_fetched _ _ _ _ _ _ _ Hg Hb).
    destruct (helperFault r); [by left|].
    unfold deferredPatch, patch.Patch.
    destruct (diffFault r); [left; by destruct out as [? [?|]|]|].
    destruct (patch.diffIsEmpty _ _); [by left|].
    right. exists obj. split; [done|]. rewrite Hb. simpl.
    by destruct (patch.sendUpdate obj' r) as [[?|] ?], out as [? [?|]|].
Qed.

Lemma Reconcile_store_properties (r : Client) (req : NamespacedName) :
  store_wf r ->
  clusters (reconcile r req).2 = clusters r /\
  (getMachineFault (reconcile r req).2 = getMachineFault r /\
   getClusterFault (reconcile r req).2 = getClusterFault r /\
   helperFault (reconcile r req).2 = helperFault r /\
   diffFault (reconcile r req).2 = diffFault r /\
   applyFault (reconcile r req).2 = applyFault r) /\
  (updates (reconcile r req).2 = updates r \/
   updates (reconcile r req).2 = S (updates r)) /\
  (forall key, key <> req ->
     machines (reconcile r req).2 !! key = machines r !! key) /\
  dom (machines (reconcile r req).2) = dom (machines r) /\
  store_wf (reconcile r req).2.
Proof.
  intros Hwf.
  destruct (Reconcile_store_cases r req) as [-> | (obj & Hg & ->)]; [split_and!; eauto|].
  destruct (sendUpdate_frame (body r obj).2 r)
    as (-> & -> & -> & -> & -> & -> & -> & Hm).
  split; [done|]. split; [done|]. split; [by right|].
  apply GetMachine_inr in Hg as [_ Hg].
  assert (Hkey : objectKey (body r obj).2 = req).
  { destruct (body r obj) as [out obj'] eqn:Hb.
    destruct (reconcileBody_frame _ _ _ _ _ _ Hb) as [_ Hobj].
    simpl. rewrite Hobj, objectKey_set. by apply Hwf. }
  unfold store_wf.
  destruct Hm as [-> | ->]; [done|]. rewrite Hkey. split_and!.
  - intros key Hne. by rewrite lookup_insert_ne.
  - apply dom_insert_lookup_L. eauto.
  - intros key m. rewrite lookup_insert. case_decide as Hk.
    + intros [= <-]. by rewrite Hkey.
    + apply Hwf.
Qed.

(** What a call never does to the store: the Clusters and the failures of
    the server are as before, at most one update request is sent, every
    Machine other than the requested one is as before, no Machine is
    created or deleted, and every Machine is still stored under its own
    namespace and name. *)
Theorem reconcile_store_frame (r : Client) (req : NamespacedName) :
  store_wf r ->
  clusters (reconcile r req).2 = clusters r /\
  (getMachineFault (reconcile r req).2 = getMachineFault r /\
   getClusterFault (reconcile r req).2 = getClusterFault r /\
   helperFault (reconcile r req).2 = helperFault r /\
   diffFault (reconcile r req).2 = diffFault r /\
   applyFault (reconcile r req).2 = applyFault r) /\
  (updates (reconcile r req).2 = updates r \/
   updates (reconcile r req).2 = S (updates r)) /\
  (forall key, key <> req ->
     machines (reconcile r req).2 !! key = machines r !! key) /\
  dom (machines (reconcile r req).2) = dom (machines r) /\
  store_wf (reconcile r req).2.
Proof. apply Reconcile_store_properties. Qed.

(** With the finalizer gone, the deletion hook changes the Machine exactly
    when the Machine has the hook key of this operator: hooks of other
    controllers set off the removal, but without the own hook the Machine,
    a nil annotation map included, is left as it was. *)
Theorem deletion_changes_iff_own_hook (obj : Machine) (cluster : Cluster) :
  controllerruntime.ContainsFinalizer cluster ClusterFinalizer = false ->
  (deletionHook obj cluster).2 = obj <->
  gomap.index (Annotations (machineMeta obj)) preTerminateAnnotation = None.
Proof.
  intros Hf. rewrite deletionHook_removes by done. simpl. split.
  - intros H. rewrite <- H at 1. simpl. apply index_remove_eq.
  - intros H. destruct (Annotations (machineMeta obj)) as [g|] eqn:E; simpl in *.
    + rewrite delete_id by done. by rewrite <- E, setAnnotations_same.
    + by rewrite <- E, setAnnotations_same.
Qed.

(** Adding and removing the hook is a round trip: for a Machine that has
    neither the hook key nor the bare prefix key, reconcileNormal sets the
    hook, the deletion hook of a Cluster without the finalizer removes it
    again, and every tag then reads as at the start; the Machine is the one
    at the start when its annotation map was allocated. *)
Theorem hook_added_then_removed (obj : Machine) (cluster cluster' : Cluster) :
  gomap.index (Annotations (machineMeta obj))
              clusterv1.PreTerminateDeleteHookAnnotationPrefix = None ->
  gomap.index (Annotations (machineMeta obj)) preTerminateAnnotation = None ->
  controllerruntime.ContainsFinalizer cluster' ClusterFinalizer = false ->
  hookPresent (reconcileNormal obj cluster).2 = true /\
  hookPresent (deletionHook (reconcileNormal obj cluster).2 cluster').2 = false /\
  (forall k,
     gomap.index
       (Annotations (machineMeta (deletionHook (reconcileNormal obj cluster).2 cluster').2)) k
     = gomap.index (Annotations (machineMeta obj)) k) /\
  (Annotations (machineMeta obj) <> None ->
   (deletionHook (reconcileNormal obj cluster).2 cluster').2 = obj).
Proof.
  intros Hb Hh Hf.
  rewrite deletionHook_removes by done.
  rewrite reconcileNormal_absent by done. unfold hookPresent. simpl.
  assert (Hg : delete preTerminateAnnotation
                 (<[preTerminateAnnotation := "ako-operator"]>
                    (default ∅ (Annotations (machineMeta obj))))
               = default ∅ (Annotations (machineMeta obj))).
  { apply delete_insert_id. by destruct (Annotations (machineMeta obj)). }
  rewrite Hg. split_and!.
  - apply bool_decide_eq_true_2. rewrite lookup_insert_eq. eauto.
  - apply bool_decide_eq_false_2.
    destruct (Annotations (machineMeta obj)); simpl in *; rewrite ?Hh; by intros [].
  - intros k. by destruct (Annotations (machineMeta obj)).
  - intros Hne. destruct (Annotations (machineMeta obj)) as [g|] eqn:E; [|done].
    rewrite setAnnotations_twice. simpl. by rewrite <- E, setAnnotations_same.
Qed.

(** A call whose decision logic leaves the object as it was leaves the
    store as it was. *)
Lemma Reconcile_unchanged (r : Client) (req : NamespacedName) (obj : Machine)
      (out : outcome) :
  GetMachine r req = inr obj ->
  body r obj = (out, obj) ->
  (reconcile r req).2 = r.
Proof.
  intros Hg Hb. rewrite (Reconcile_fetched _ _ _ _ _ _ _ Hg Hb).
  destruct (helperFault r); [done|].
  unfold deferredPatch, patch.Patch, patch.diffIsEmpty. simpl.
  rewrite bool_decide_eq_true_2 by done.
  by destruct (diffFault r), out as [? [?|]|].
Qed.

(** The life of the hook, call by call.  While the Cluster is alive, a call
    puts the hook on a Machine that has neither the hook key nor the bare
    prefix key.  Once the Cluster is being deleted and still has the
    finalizer, a call changes nothing and sends no update.  Once the
    finalizer is gone, a call takes the hook off again, and every tag of
    the stored Machine reads as before the first call.  Between the calls
    the server may change anything but the Machines; all three calls
    return a nil error. *)
Theorem hook_lifecycle (r0 r1 r2 : Client) (req : NamespacedName)
        (obj obj1 obj2 : Machine) (c0 c1 c2 : Cluster) :
  store_wf r0 -> responsive r0 ->
  inScope AviClusterLabel r0 req obj c0 ->
  deleting c0 = false ->
  gomap.index (Annotations (machineMeta obj))
              clusterv1.PreTerminateDeleteHookAnnotationPrefix = None ->
  gomap.index (Annotations (machineMeta obj)) preTerminateAnnotation = None ->
  machines r1 = machines (reconcile r0 req).2 -> responsive r1 ->
  inScope AviClusterLabel r1 req obj1 c1 ->
  deleting c1 = true -> finalizerPresent ClusterFinalizer c1 = true ->
  machines r2 = machines (reconcile r1 req).2 -> responsive r2 ->
  inScope AviClusterLabel r2 req obj2 c2 ->
  deleting c2 = true -> finalizerPresent ClusterFinalizer c2 = false ->
  (reconcile r0 req).1 = Return emptyResult None /\
  hookPresent obj1 = true /\
  (reconcile r1 req).1 = Return emptyResult None /\
  (reconcile r1 req).2 = r1 /\
  obj2 = obj1 /\
  (reconcile r2 req).1 = Return emptyResult None /\
  exists obj3,
    machines (reconcile r2 req).2 !! req = Some obj3 /\
    hookPresent obj3 = false /\
    forall k, gomap.index (Annotations (machineMeta obj3)) k
              = gomap.index (Annotations (machineMeta obj)) k.
Proof.
  intros Hwf0 (Hh0 & Hd0 & Ha0) Hin0 Hdel0 Hbare Hhook
         Hm1 (Hh1 & Hd1 & Ha1) Hin1 Hdel1 Hfin1
         Hm2 (Hh2 & Hd2 & Ha2) Hin2 Hdel2 Hfin2.
  (* first call *)
  assert (Hb0 := body_in_scope AviClusterLabel ClusterFinalizer _ _ _ _ Hin0).
  rewrite Hdel0, reconcileNormal_absent in Hb0 by done.
  destruct (Reconcile_healthy _ _ _ _ _ _ _ Hh0 Hd0 Ha0 Hwf0 (proj1 Hin0) Hb0)
    as [Hr0 Hs0].
  assert (Hwf1 : store_wf r1).
  { unfold store_wf. rewrite Hm1.
    by apply (Reconcile_store_properties r0 req Hwf0). }
  assert (Hobj1 : obj1 =
                  setAnnotations obj
                    (Some (<[preTerminateAnnotation := "ako-operator"]>
                             (default ∅ (Annotations (machineMeta obj)))))).
  { destruct Hin1 as [Hg1 _]. apply GetMachine_inr in Hg1 as [_ Hg1].
    rewrite Hm1, Hs0 in Hg1. by injection Hg1. }
  (* second call *)
  assert (Hb1 := body_in_scope AviClusterLabel ClusterFinalizer _ _ _ _ Hin1).
  rewrite Hdel1, deletionHook_waits in Hb1 by done.
  destruct (Reconcile_healthy _ _ _ _ _ _ _ Hh1 Hd1 Ha1 Hwf1 (proj1 Hin1) Hb1)
    as [Hr1 _].
  assert (Hs1 := Reconcile_unchanged _ _ _ _ (proj1 Hin1) Hb1).
  rewrite Hs1 in Hm2.
  assert (Hwf2 : store_wf r2) by (unfold store_wf; by rewrite Hm2).
  assert (Hobj2 : obj2 = obj1).
  { destruct Hin1 as [Hg1 _], Hin2 as [Hg2 _].
    apply GetMachine_inr in Hg1 as [_ Hg1]. apply GetMachine_inr in Hg2 as [_ Hg2].
    rewrite Hm2, Hg1 in Hg2. by injection Hg2. }
  (* third call *)
  assert (Hb2 := body_in_scope AviClusterLabel ClusterFinalizer _ _ _ _ Hin2).
  rewrite Hdel2, deletionHook_removes in Hb2 by done.
  destruct (Reconcile_healthy _ _ _ _ _ _ _ Hh2 Hd2 Ha2 Hwf2 (proj1 Hin2) Hb2)
    as [Hr2 Hs2].
  split; [done|]. split.
  { rewrite Hobj1. unfold hookPresent. simpl.
    apply bool_decide_eq_true_2. rewrite lookup_insert_eq. eauto. }
  split; [done|]. split; [done|]. split; [done|]. split; [done|].
  eexists. split; [exact Hs2|].
  rewrite Hobj2, Hobj1. unfold hookPresent. simpl.
  rewrite delete_insert_id by by destruct (Annotations (machineMeta obj)).
  split.
  - apply bool_decide_eq_false_2.
    destruct (Annotations (machineMeta obj)); simpl in *; rewrite ?Hhook; by intros [].
  - intros k. by destruct (Annotations (machineMeta obj)).
Qed.

End Paths.

(** ** The further properties on the sample objects *)

Lemma unlabelled_machine_skipped_witness :
  let r := sample.brokenClient sample.orphan (errorString "cannot compute diff") in
  reconcileBody sample.AviClusterLabel sample.ClusterFinalizer r sample.orphan
    = (Return emptyResult None, sample.orphan) /\
  (Reconcile sample.AviClusterLabel sample.ClusterFinalizer r sample.req).2 = r.
Proof.
  intros r.
  destruct (unlabelled_machine_skipped
              sample.AviClusterLabel sample.ClusterFinalizer r sample.req sample.orphan)
    as (Hbody & Hstore & _); [reflexivity..|].
  split; [exact Hbody | exact Hstore].
Defined.

Lemma cluster_read_error_returned_witness :
  let r := sample.brokenClient (sample.machine None) (errorString "cannot compute diff") in
  Reconcile sample.AviClusterLabel sample.ClusterFinalizer r sample.req
    = (Return emptyResult (Some (apierrors.NewNotFound "clusters" "workload")), r).
Proof.
  intros r.
  apply (cluster_read_error_returned
           sample.AviClusterLabel sample.ClusterFinalizer r sample.req
           (sample.machine None) "workload"); reflexivity.
Defined.

Lemma reconcile_error_provenance_witness :
  let e := errorString "cannot compute diff" in
  let r := sample.withFaults
             (sample.client (sample.machine None) (sample.cluster sample.enabled None []))
             None (Some e) None in
  (Reconcile sample.AviClusterLabel sample.ClusterFinalizer r sample.req).1
    = Return emptyResult (Some e) /\
  diffFault r = Some e.
Proof.
  intros e r. split; [reflexivity|].
  destruct (reconcile_error_provenance
              sample.AviClusterLabel sample.ClusterFinalizer r sample.req emptyResult e)
    as [[H _]|[(obj & cause & _ & H & _)|[(obj & name & Hg & Hl & H)|[H|H]]]].
  - reflexivity.
  - vm_compute in H. discriminate H.
  - vm_compute in H. discriminate H.
  - vm_compute in Hg. injection Hg as <-.
    vm_compute in Hl. injection Hl as <-.
    vm_compute in H. discriminate H.
  - exact H.
  - vm_compute in H. discriminate H.
Defined.

Lemma reconcile_store_frame_witness :
  let r := sample.client (sample.machine None) (sample.cluster sample.enabled None []) in
  let r' := (Reconcile sample.AviClusterLabel sample.ClusterFinalizer r sample.req).2 in
  updates r' = 1 /\ clusters r' = clusters r /\
  dom (machines r') = dom (machines r) /\ store_wf r'.
Proof.
  intros r r'.
  destruct (reconcile_store_frame
              sample.AviClusterLabel sample.ClusterFinalizer r sample.req)
    as (Hc & _ & _ & _ & Hdom & Hwf).
  - apply (sample_store_wf None _ None None None).
  - split; [reflexivity|]. split; [exact Hc|]. split; [exact Hdom | exact Hwf].
Defined.

Lemma deletion_changes_iff_own_hook_witness :
  let cluster := sample.cluster sample.enabled sample.someTime [] in
  (reconcileMachineDeletionHook sample.ClusterFinalizer
     (sample.machine (Some sample.foreignHook)) cluster).2
  = sample.machine (Some sample.foreignHook) /\
  (reconcileMachineDeletionHook sample.ClusterFinalizer
     (sample.machine (Some sample.twoHooks)) cluster).2
  <> sample.machine (Some sample.twoHooks).
Proof.
  intros cluster. split.
  - apply (deletion_changes_iff_own_hook
             sample.ClusterFinalizer (sample.machine (Some sample.foreignHook)) cluster);
      reflexivity.
  - intros H.
    apply (deletion_changes_iff_own_hook
             sample.ClusterFinalizer (sample.machine (Some sample.twoHooks)) cluster)
      in H; [discriminate H | reflexivity].
Defined.

Lemma hook_added_then_removed_witness :
  let obj := sample.machine (Some sample.plainTags) in
  let alive := sample.cluster sample.enabled None [sample.ClusterFinalizer] in
  let cleaned := sample.cluster sample.enabled sample.someTime [] in
  (reconcileNormal obj alive).2 = sample.machine (Some sample.hookedTags) /\
  (reconcileMachineDeletionHook sample.ClusterFinalizer
     (reconcileNormal obj alive).2 cleaned).2 = obj.
Proof.
  intros obj alive cleaned. split; [reflexivity|].
  destruct (hook_added_then_removed sample.ClusterFinalizer obj alive cleaned)
    as (_ & _ & _ & Hsame); [reflexivity..|].
  apply Hsame. discriminate.
Defined.

Lemma hook_lifecycle_witness :
  let obj := sample.machine (Some sample.plainTags) in
  let hooked := sample.machine (Some sample.hookedTags) in
  let r0 := sample.client obj
              (sample.cluster sample.enabled None [sample.ClusterFinalizer]) in
  let r1 := sample.client hooked
              (sample.cluster sample.enabled sample.someTime [sample.ClusterFinalizer]) in
  let r2 := sample.client hooked
              (sample.cluster sample.enabled sample.someTime []) in
  machines (Reconcile sample.AviClusterLabel sample.ClusterFinalizer r0 sample.req).2
    = machines r1 /\
  (Reconcile sample.AviClusterLabel sample.ClusterFinalizer r1 sample.req).2 = r1 /\
  exists obj3,
    machines (Reconcile sample.AviClusterLabel sample.ClusterFinalizer r2 sample.req).2
      !! sample.req = Some obj3 /\
    hookPresent obj3 = false /\
    gomap.index (Annotations (machineMeta obj3)) "owner" = Some "team-a".
Proof.
  intros obj hooked r0 r1 r2. split; [reflexivity|].
  destruct (hook_lifecycle
              sample.AviClusterLabel sample.ClusterFinalizer r0 r1 r2 sample.req
              obj hooked hooked
              (sample.cluster sample.enabled None [sample.ClusterFinalizer])
              (sample.cluster sample.enabled sample.someTime [sample.ClusterFinalizer])
              (sample.cluster sample.enabled sample.someTime []))
    as (_ & _ & _ & Hsame & _ & _ & obj3 & Hstored & Hgone & Htags).
  - apply (sample_store_wf _ _ None None None).
  - by split_and!.
  - apply (sample_in_scope _ _ _ None None None).
  - reflexivity.
  - reflexivity.
  - reflexivity.
  - reflexivity.
  - by split_and!.
  - apply (sample_in_scope _ _ _ None None None).
  - reflexivity.
  - reflexivity.
  - reflexivity.
  - by split_and!.
  - apply (sample_in_scope _ _ _ None None None).
  - reflexivity.
  - reflexivity.
  - split; [exact Hsame|]. exists obj3. split; [exact Hstored|].
    split; [exact Hgone|]. rewrite Htags. reflexivity.
Defined.

(** ** Calls that send nothing *)

Section Quiescence.

Variable AviClusterLabel : string.
Variable ClusterFinalizer : string.

Local Abbreviation reconcile := (Reconcile AviClusterLabel ClusterFinalizer).
Local Abbreviation body := (reconcileBody AviClusterLabel ClusterFinalizer).

Lemma Reconcile_quiet (r : Client) (req : NamespacedName) (obj : Machine) :
  GetMachine r req = inr obj ->
  body r obj = (Return emptyResult None, obj) ->
  (reconcile r req).2 = r /\
  (helperFault r = None -> diffFault r = None ->
   (reconcile r req).1 = Return emptyResult None).
Proof.
  intros Hg Hb. rewrite (Reconcile_fetched _ _ _ _ _ _ _ Hg Hb).
  unfold deferredPatch, patch.Patch, patch.diffIsEmpty. simpl.
  rewrite bool_decide_eq_true_2 by done.
  split.
  - by destruct (helperFault r), (diffFault r).
  - by intros -> ->.
Qed.

(** While the Cluster is being deleted and still has the finalizer, the
    Machine is left as it was, with or without hooks, and the call sends no
    update and leaves the store as it was, whatever the server answers; it
    returns a nil error when the patch helper can be set up and the diff
    can be computed. *)
Theorem pending_cleanup_sends_nothing (r : Client) (req : NamespacedName)
        (obj : Machine) (cluster : Cluster) :
  inScope AviClusterLabel r req obj cluster ->
  deleting cluster = true ->
  finalizerPresent ClusterFinalizer cluster = true ->
  body r obj = (Return emptyResult None, obj) /\
  (reconcile r req).2 = r /\
  (helperFault r = None -> diffFault r = None ->
   (reconcile r req).1 = Return emptyResult None).
Proof.
  intros Hin Hd Hf.
  assert (Hb := body_in_scope AviClusterLabel ClusterFinalizer _ _ _ _ Hin).
  rewrite Hd, deletionHook_waits in Hb by done.
  split; [done|]. apply (Reconcile_quiet r req obj (proj1 Hin) Hb).
Qed.

(** In the steady state, a Cluster that is not being deleted and a Machine
    whose hook key already maps to "ako-operator", the call leaves the
    Machine as it was, sends no update and leaves the store as it was,
    although reconcileNormal assigns the hook again when no tag has the
    bare prefix as its key. *)
Theorem steady_state_sends_nothing (r : Client) (req : NamespacedName)
        (obj : Machine) (cluster : Cluster) :
  inScope AviClusterLabel r req obj cluster ->
  deleting cluster = false ->
  gomap.index (Annotations (machineMeta obj)) preTerminateAnnotation
    = Some "ako-operator" ->
  body r obj = (Return emptyResult None, obj) /\
  (reconcile r req).2 = r /\
  (helperFault r = None -> diffFault r = None ->
   (reconcile r req).1 = Return emptyResult None).
Proof.
  intros Hin Hd Hh.
  assert (Hb : body r obj = (Return emptyResult None, obj)).
  { rewrite (body_in_scope AviClusterLabel ClusterFinalizer _ _ _ _ Hin), Hd.
    destruct (gomap.index (Annotations (machineMeta obj))
                          clusterv1.PreTerminateDeleteHookAnnotationPrefix) eqn:E.
    - apply reconcileNormal_present. eauto.
    - rewrite reconcileNormal_absent by done. f_equal.
      destruct (Annotations (machineMeta obj)) as [g|] eqn:Ea; [|done].
      simpl in *. rewrite insert_id by done. by rewrite <- Ea, setAnnotations_same. }
  split; [done|]. apply (Reconcile_quiet r req obj (proj1 Hin) Hb).
Qed.

End Quiescence.

Lemma pending_cleanup_sends_nothing_witness :
  let r := sample.withFaults
             (sample.client
                (sample.machine (Some sample.twoHooks))
                (sample.cluster sample.enabled sample.someTime [sample.ClusterFinalizer]))
             None None (Some (errorString "server is read-only")) in
  Reconcile sample.AviClusterLabel sample.ClusterFinalizer r sample.req
    = (Return emptyResult None, r).
Proof.
  intros r.
  destruct (pending_cleanup_sends_nothing
              sample.AviClusterLabel sample.ClusterFinalizer r sample.req
              (sample.machine (Some sample.twoHooks))
              (sample.cluster sample.enabled sample.someTime [sample.ClusterFinalizer]))
    as (_ & Hstore & Hnil).
  - apply (sample_in_scope _ _ _ None None (Some (errorString "server is read-only"))).
  - reflexivity.
  - reflexivity.
  - rewrite (surjective_pairing (Reconcile _ _ r sample.req)).
    rewrite Hstore, Hnil; reflexivity.
Defined.

Lemma steady_state_sends_nothing_witness :
  let r := sample.client (sample.machine (Some sample.hookedTags))
                         (sample.cluster sample.enabled None [sample.ClusterFinalizer]) in
  Reconcile sample.AviClusterLabel sample.ClusterFinalizer r sample.req
    = (Return emptyResult None, r).
Proof.
  intros r.
  destruct (steady_state_sends_nothing
              sample.AviClusterLabel sample.ClusterFinalizer r sample.req
              (sample.machine (Some sample.hookedTags))
              (sample.cluster sample.enabled None [sample.ClusterFinalizer]))
    as (_ & Hstore & Hnil).
  - apply (sample_in_scope _ _ _ None None None).
  - reflexivity.
  - reflexivity.
  - rewrite (surjective_pairing (Reconcile _ _ r sample.req)).
    rewrite Hstore, Hnil; reflexivity.
Defined.
